(** * News-article collection pipelines: a shallow embedding

    Embedding of [src/data/GDELT_API_dataset_generator.py] and
    [src/data/newsAPI_dataset_generator.py]: the pandas frame operations the
    two pipelines use, their [load_existing], [clean_and_merge], fetchers and
    [main] orchestration, followed by the properties of the specification. *)

From Stdlib Require Import ZArith QArith Ascii String.
From stdpp Require Import gmap strings list fin_maps.

Local Open Scope string_scope.
Local Open Scope list_scope.
Local Open Scope Z_scope.

(** ** Exceptions and fallible computations *)

(** The exceptions the two programs can meet.  [KeyError] carries the labels
    pandas reports as absent, [HTTPError] the status code that
    [raise_for_status] rejected; [ValueError] is what [time.sleep] raises on
    a negative length and [float] on text that is no number, [LookupError]
    what [nltk.data.find] raises for a resource that is not installed;
    [OtherError] stands for every other [Exception] (connection failures,
    undecodable bodies, unreadable files). *)
Inductive exn :=
  | KeyError (labels : list string)
  | HTTPError (status : Z)
  | RuntimeError
  | ValueError
  | LookupError
  | OtherError.

Inductive result (A : Type) :=
  | Ok (a : A)
  | Raise (e : exn).
Arguments Ok {A} a.
Arguments Raise {A} e.

#[global] Instance result_ret : MRet result := λ A a, Ok a.
#[global] Instance result_bind : MBind result := λ A B f m,
  match m with
  | Ok a => f a
  | Raise e => Raise e
  end.

Definition is_ok {A} (m : result A) : bool :=
  match m with Ok _ => true | Raise _ => false end.

(** ** Data frames *)

(** A row maps a column label to the text of its cell; a label without a
    binding is a missing cell (pandas' NaN / None). *)
Abbreviation row := (gmap string string).

Record DataFrame := mkFrame {
  columns : list string;
  rows : list row
}.

(** [pd.DataFrame()] *)
Definition empty_frame : DataFrame := mkFrame [] [].

(** [df.empty]: no row or no column. *)
Definition df_empty (df : DataFrame) : bool :=
  bool_decide (columns df = []) || bool_decide (rows df = []).

(** Every cell of a pandas frame lies under one of its columns. *)
Definition well_formed (df : DataFrame) : Prop :=
  Forall (λ r : row, ∀ c, is_Some (r !! c) → c ∈ columns df) (rows df).

(** [pd.concat([a, b], ignore_index=True)]: the columns of [a] followed by the
    columns only [b] has, the rows of [a] followed by the rows of [b]; cells
    under a column the other frame brought stay missing. *)
Definition concat2 (a b : DataFrame) : DataFrame :=
  mkFrame (columns a ++ list_difference (columns b) (columns a))
          (rows a ++ rows b).

(** [pd.concat(frames, ignore_index=True)] for a non-empty list [frames]. *)
Definition concat (frames : list DataFrame) : DataFrame :=
  foldl concat2 empty_frame frames.

(** [df[cols]] for labels all present in [df]. *)
Definition restrict (cols : list string) (r : row) : row :=
  filter (λ kv, kv.1 ∈ cols) r.

Definition select (cols : list string) (df : DataFrame) : DataFrame :=
  mkFrame cols (restrict cols <$> rows df).

(** pandas checks the labels of [subset] first and raises [KeyError] with the
    absent ones. *)
Definition check_labels (subset : list string) (df : DataFrame) : result unit :=
  match list_difference subset (columns df) with
  | [] => Ok ()
  | missing => Raise (KeyError missing)
  end.

Definition has_cells (subset : list string) (r : row) : bool :=
  forallb (λ c, bool_decide (is_Some (r !! c))) subset.

(** [df.dropna(subset=subset)]: rows with a missing cell under any label of
    [subset] go. *)
Definition dropna (subset : list string) (df : DataFrame) : result DataFrame :=
  _ ← check_labels subset df;
  Ok (mkFrame (columns df) (filter (λ r, has_cells subset r = true) (rows df))).

(** The key [drop_duplicates] compares: the cells under [subset]; two missing
    cells compare equal there. *)
Definition dup_key (subset : list string) (r : row) : list (option string) :=
  (λ c, r !! c) <$> subset.

(** Keep a row unless the key of an earlier row equals its key
    ([keep="first"], the default). *)
Fixpoint keep_first (subset : list string) (seen : list (list (option string)))
    (l : list row) : list row :=
  match l with
  | [] => []
  | r :: l' =>
      if decide (dup_key subset r ∈ seen) then keep_first subset seen l'
      else r :: keep_first subset (dup_key subset r :: seen) l'
  end.

(** [df.drop_duplicates(subset=subset)] *)
Definition drop_duplicates (subset : list string) (df : DataFrame) : result DataFrame :=
  _ ← check_labels subset df;
  Ok (mkFrame (columns df) (keep_first subset [] (rows df))).

(** [df[col] = df[col].fillna(v)] *)
Definition fillna (col v : string) (df : DataFrame) : DataFrame :=
  mkFrame (columns df)
          ((λ r : row, match r !! col with
                       | Some _ => r
                       | None => <[col := v]> r
                       end) <$> rows df).

(** ** Text cells *)

(** Python's [str.isspace] on the code points below 256. *)
Definition is_space (a : ascii) : bool :=
  let n := N_of_ascii a in
  ((9 <=? n) && (n <=? 13) || (28 <=? n) && (n <=? 32)
   || (n =? 133) || (n =? 160))%N.

Fixpoint lstrip (s : string) : string :=
  match s with
  | EmptyString => EmptyString
  | String a s' => if is_space a then lstrip s' else s
  end.

Fixpoint rstrip (s : string) : string :=
  match s with
  | EmptyString => EmptyString
  | String a s' =>
      match rstrip s' with
      | EmptyString => if is_space a then EmptyString else String a EmptyString
      | t => String a t
      end
  end.

(** [s.strip()] *)
Definition strip (s : string) : string := lstrip (rstrip s).

(** [astype(str)] on a cell: text stays, and a missing cell becomes text
    too.  pandas prints a NaN cell as ["nan"] and a [None] cell as ["None"];
    a row keeps no trace of which of the two a missing cell is, so the text
    chosen here is the one of NaN, and nothing below depends on it: the
    properties only use that the cell is present and trimmed afterwards. *)
Definition astype_str (c : option string) : string := default "nan" c.

(** [df[col] = df[col].astype(str).str.strip()] *)
Definition strip_column (col : string) (df : DataFrame) : DataFrame :=
  mkFrame (columns df)
          ((λ r : row, <[col := strip (astype_str (r !! col))]> r) <$> rows df).

(** ** The GDELT pipeline: merge *)

Module Gdelt.

Definition key_columns : list string :=
  ["url"; "title"; "content"; "seendate"; "sourceCountry"; "sourceCollection";
   "domain"; "query_used"].

Definition clean_and_merge (existing new : DataFrame) : result DataFrame :=
  let combined := concat [existing; new] in
  let keep_cols := filter (λ c, c ∈ columns combined) key_columns in
  let combined := select keep_cols combined in
  combined ←
    (if decide ("url" ∈ columns combined) then
       combined ← drop_duplicates ["url"] combined;
       dropna ["url"] combined
     else Ok combined);
  combined ←
    (if decide ("title" ∈ columns combined) then dropna ["title"] combined
     else Ok combined);
  Ok (if decide ("content" ∈ columns combined)
      then fillna "content" "" combined
      else combined).

End Gdelt.

(** ** The NewsAPI pipeline: merge *)

Module NewsApi.

Definition text_columns : list string :=
  ["source"; "author"; "title"; "description"; "url"; "content"; "query"].

Definition strip_columns (cols : list string) (df : DataFrame) : DataFrame :=
  foldl (λ df col, if decide (col ∈ columns df) then strip_column col df else df)
        df cols.

Definition clean_and_merge (existing new_data : DataFrame) : result DataFrame :=
  let combined := concat [existing; new_data] in
  combined ← dropna ["url"; "title"] combined;
  combined ← drop_duplicates ["url"] combined;
  Ok (strip_columns text_columns combined).

End NewsApi.

(** ** The world the programs run in *)

(** A JSON object whose members are text or null, in member order. *)
Abbreviation json_object := (list (string * option string)).

(** [obj.get(k)] *)
Fixpoint get (k : string) (obj : json_object) : option string :=
  match obj with
  | [] => None
  | (k', v) :: obj' => if decide (k = k') then v else get k obj'
  end.

(** The requests the two fetchers send. *)
Inductive request :=
  | GdeltDoc (query : string) (maxrecords timeout : Z)
  | NewsEverything (q api_key language : string) (page_size page : Z).

(** What [requests.get] gives back: no response at all (it raises), or a
    status code with a body that is not JSON, or is a JSON object with or
    without an ["articles"] array of [A]. *)
Inductive body (A : Type) :=
  | NotJson
  | Json (articles : option (list A)).
Arguments NotJson {A}.
Arguments Json {A} articles.

Inductive reply (A : Type) :=
  | NoReply
  | Reply (status : Z) (b : body A).
Arguments NoReply {A}.
Arguments Reply {A} status b.

(** The lines the programs print. *)
Inductive message :=
  | HttpErrorLine (e : exn) (query : string)
  | ErrorLine (e : exn) (query : string)
  | NoNewArticles
  | SavedLine (path : string) (total_rows : nat)
  | FetchingLine (query : string)
  | FetchedRowsLine (n : nat).

Inductive event :=
  | Requested (r : request)
  | Slept (seconds : Q)
  | Printed (m : message)
  | Stored (path : string).

Section Effects.

(** File contents are opaque; [read_csv] is pandas' parser (it raises on what
    it cannot parse) and [to_csv] its serialiser. *)
Context {raw : Type}.
Variable read_csv : raw → result DataFrame.
Variable to_csv : DataFrame → raw.

(** The files by path, the number of requests sent so far and everything
    observable the run did, oldest first. *)
Record world := mkWorld {
  fs : gmap string raw;
  sent : nat;
  trace : list event
}.

(** A computation changes the world and returns or raises; what it did to
    the world before raising stays done. *)
Definition M (A : Type) : Type := world → result A * world.

Definition ret {A} (a : A) : M A := λ w, (Ok a, w).

Definition bind {A B} (m : M A) (k : A → M B) : M B := λ w,
  match m w with
  | (Ok a, w') => k a w'
  | (Raise e, w') => (Raise e, w')
  end.

Definition raise {A} (e : exn) : M A := λ w, (Raise e, w).

(** [try: m  except ...: handler e] *)
Definition try_except {A} (m : M A) (handler : exn → M A) : M A := λ w,
  match m w with
  | (Ok a, w') => (Ok a, w')
  | (Raise e, w') => handler e w'
  end.

Definition lift {A} (r : result A) : M A := λ w, (r, w).

Definition emit (e : event) : M unit := λ w,
  (Ok (), mkWorld (fs w) (sent w) (trace w ++ [e])).

Definition print (m : message) : M unit := emit (Printed m).

(** [time.sleep(seconds)]: a negative length raises [ValueError]. *)
Definition sleep (seconds : Q) : M unit :=
  if Qlt_le_dec seconds 0 then raise ValueError else emit (Slept seconds).

(** [requests.get]: the answer may depend on the request and on how many
    requests were sent before it. *)
Definition http_get {A} (net : nat → request → reply A) (r : request) : M (reply A) := λ w,
  (Ok (net (sent w) r), mkWorld (fs w) (S (sent w)) (trace w ++ [Requested r])).

(** [os.path.exists(path)] *)
Definition path_exists (path : string) : M bool := λ w,
  (Ok (bool_decide (is_Some (fs w !! path))), w).

(** [pd.read_csv(path)] *)
Definition read_file (path : string) : M DataFrame := λ w,
  match fs w !! path with
  | Some content => (read_csv content, w)
  | None => (Raise OtherError, w)
  end.

(** [df.to_csv(path, index=False)] *)
Definition write_file (path : string) (df : DataFrame) : M unit := λ w,
  (Ok (), mkWorld (<[path := to_csv df]> (fs w)) (sent w) (trace w ++ [Stored path])).

End Effects.

Arguments world raw : clear implicits.
Arguments M raw A : clear implicits.

Notation "'let*' x ':=' m 'in' k" := (bind m (λ x, k))
  (at level 10, x pattern, m at level 100, k at level 200,
   format "'[v' 'let*'  x  ':='  m  'in' '/' k ']'").
Notation "m ';;' k" := (bind m (λ _, k))
  (at level 100, k at level 200, right associativity).

(** [resp.raise_for_status()]: client and server error codes raise. *)
Definition raise_for_status {raw} (status : Z) : M raw unit :=
  if decide (400 ≤ status < 600) then raise (HTTPError status) else ret ().

(** [resp.json()] followed by [data.get("articles", [])] *)
Definition json_articles {raw A} (b : body A) : M raw (list A) :=
  match b with
  | NotJson => raise OtherError
  | Json articles => ret (default [] articles)
  end.

(** [pd.DataFrame(records)] for a non-empty list of dicts: one column per key,
    in order of first appearance, one row per dict; a null member is a
    missing cell. *)
Definition row_of_object (obj : json_object) : row :=
  foldr (λ kv r, match kv.2 with
                 | Some v => <[kv.1 := v]> r
                 | None => delete kv.1 r
                 end) ∅ obj.

Definition frame_of_records (records : list json_object) : DataFrame :=
  mkFrame (remove_dups (records ≫= fmap fst)) (row_of_object <$> records).

(** [df[col] = v] for a scalar [v] *)
Definition set_column (col v : string) (df : DataFrame) : DataFrame :=
  mkFrame (if decide (col ∈ columns df) then columns df else columns df ++ [col])
          ((λ r : row, <[col := v]> r) <$> rows df).

(** The query list both programs share. *)
Definition DEFAULT_QUERIES : list string :=
  ["Trump shooting rally"; "Trump assassination attempt";
   "Trump Pennsylvania rally 2024"; "Trump July 2024 news";
   "Trump rally protest"; "Trump Pennsylvania news";
   "Trump July 2024 incident"; "Trump rally media coverage";
   "Trump security breach"; "Trump rally attack";
   "Trump rally 2024 analysis"; "Trump rally response 2024"].

(** ** The GDELT pipeline: fetch, load and orchestration *)

Module GdeltRun.

Section Run.

Context {raw : Type}.
Variable read_csv : raw → result DataFrame.
Variable to_csv : DataFrame → raw.
Variable net : nat → request → reply json_object.
Variable OUTPUT_CSV : string.

(** What the program takes from its surroundings: the data directory, which
    depends on where the script lies, [os.makedirs], the two NLTK functions
    [ensure_nltk] calls, the environment variable that holds the delay and
    Python's [float] on text.  Each of the three library calls may raise,
    send requests, print and store files.  A delay is a rational number
    here: text that [float] reads as an infinity or as a NaN is not
    covered. *)
Variable DATA_DIR : string.
Variable os_makedirs : string → M raw unit.
Variable nltk_data_find : string → M raw unit.
Variable nltk_download : string → M raw unit.
Variable GDELT_SLEEP_SECONDS : option string.
Variable float : string → result Q.

Definition ensure_nltk : M raw unit :=
  try_except (nltk_data_find "tokenizers/punkt")
    (λ e, match e with
          | LookupError => nltk_download "punkt"
          | _ => raise e
          end);;
  try_except (nltk_data_find "corpora/stopwords")
    (λ e, match e with
          | LookupError => nltk_download "stopwords"
          | _ => raise e
          end).

Definition fetch_gdelt_articles (query : string) (maxrecords timeout : Z)
    : M raw DataFrame :=
  let* r := http_get net (GdeltDoc query maxrecords timeout) in
  match r with
  | NoReply => raise OtherError
  | Reply status b =>
      raise_for_status status;;
      let* articles := json_articles b in
      match articles with
      | [] => ret empty_frame
      | _ => ret (set_column "query_used" query (frame_of_records articles))
      end
  end.

Definition load_existing (path : string) : M raw DataFrame :=
  let* present := path_exists path in
  if present then read_file read_csv path else ret empty_frame.

(** The body of [for q in queries]: the accumulator is [all_new]. *)
Fixpoint collect (queries : list string) (sleep_s : Q) (all_new : list DataFrame)
    : M raw (list DataFrame) :=
  match queries with
  | [] => ret all_new
  | q :: queries' =>
      let* all_new :=
        try_except
          (let* df := fetch_gdelt_articles q 250 30 in
           ret (if df_empty df then all_new else all_new ++ [df]))
          (λ e, match e with
                | HTTPError _ => print (HttpErrorLine e q);; ret all_new
                | _ => print (ErrorLine e q);; ret all_new
                end) in
      sleep sleep_s;;
      collect queries' sleep_s all_new
  end.

Definition main_for (queries : list string) : M raw unit :=
  os_makedirs DATA_DIR;;
  ensure_nltk;;
  let* sleep_s := lift (float (default "0.3" GDELT_SLEEP_SECONDS)) in
  let* existing := load_existing OUTPUT_CSV in
  let* all_new := collect queries sleep_s [] in
  match all_new with
  | [] => print NoNewArticles
  | _ =>
      let new_data := concat all_new in
      let* combined := lift (Gdelt.clean_and_merge existing new_data) in
      write_file to_csv OUTPUT_CSV combined;;
      print (SavedLine OUTPUT_CSV (length (rows combined)))
  end.

Definition main : M raw unit := main_for DEFAULT_QUERIES.

End Run.

End GdeltRun.

(** ** The NewsAPI pipeline: fetch, load and orchestration *)

Module NewsApiRun.

(** An element of the ["articles"] array, with the members the fetcher reads. *)
Record news_article := mkArticle {
  a_source : option json_object;
  a_author : option string;
  a_title : option string;
  a_description : option string;
  a_url : option string;
  a_publishedAt : option string;
  a_content : option string
}.

(** The dict the fetcher appends for article [a]. *)
Definition article_row (query : string) (a : news_article) : json_object :=
  [("source", get "name" (default [] (a_source a)));
   ("author", a_author a);
   ("title", a_title a);
   ("description", a_description a);
   ("url", a_url a);
   ("published_at", a_publishedAt a);
   ("content", a_content a);
   ("query", Some query)].

(** [max(2.0, sleep_s)] *)
Definition backoff (sleep_s : Q) : Q :=
  if Qlt_le_dec 2 sleep_s then sleep_s else 2%Q.

Definition OUT_FILE : string := "dataset/newsapi_articles.csv".

Section Run.

Context {raw : Type}.
Variable read_csv : raw → result DataFrame.
Variable to_csv : DataFrame → raw.
Variable net : nat → request → reply news_article.
Variable NEWSAPI_KEY : option string.

Definition _require_api_key : M raw string :=
  let key := strip (default "" NEWSAPI_KEY) in
  if decide (key = "") then raise RuntimeError else ret key.

(** The body of [for page in range(1, max_pages + 1)], over the pages still
    to come; the accumulator is [all_rows]. *)
Fixpoint fetch_pages (query api_key language : string) (page_size : Z)
    (sleep_s : Q) (pages : list Z) (all_rows : list json_object)
    : M raw (list json_object) :=
  match pages with
  | [] => ret all_rows
  | page :: pages' =>
      let* resp := http_get net (NewsEverything query api_key language page_size page) in
      match resp with
      | NoReply => raise OtherError
      | Reply status b =>
          if decide (status = 429) then
            sleep (backoff sleep_s);;
            fetch_pages query api_key language page_size sleep_s pages' all_rows
          else
            raise_for_status status;;
            let* articles := json_articles b in
            match articles with
            | [] => ret all_rows
            | _ =>
                sleep sleep_s;;
                fetch_pages query api_key language page_size sleep_s pages'
                  (all_rows ++ (article_row query <$> articles))
            end
      end
  end.

Definition fetch_newsapi_articles (query api_key language : string)
    (page_size max_pages : Z) (sleep_s : Q) : M raw DataFrame :=
  let* all_rows :=
    fetch_pages query api_key language page_size sleep_s (seqZ 1 max_pages) [] in
  ret (frame_of_records all_rows).

Definition load_existing (path : string) : M raw DataFrame :=
  let* present := path_exists path in
  if present
  then try_except (read_file read_csv path) (λ _, ret empty_frame)
  else ret empty_frame.

(** The body of [for q in DEFAULT_QUERIES]: the accumulator is [frames]. *)
Fixpoint fetch_all (api_key : string) (queries : list string)
    (frames : list DataFrame) : M raw (list DataFrame) :=
  match queries with
  | [] => ret frames
  | q :: queries' =>
      print (FetchingLine q);;
      let* df_q := fetch_newsapi_articles q api_key "en" 100 5 1 in
      print (FetchedRowsLine (length (rows df_q)));;
      fetch_all api_key queries' (frames ++ [df_q])
  end.

(** [os.makedirs(OUT_DIR, exist_ok=True)] makes a directory and no file; the
    world holds the files only, and the call is left out. *)
Definition main_for (queries : list string) : M raw unit :=
  let* api_key := _require_api_key in
  let* existing := load_existing OUT_FILE in
  let* frames := fetch_all api_key queries [] in
  let new_data := match frames with [] => empty_frame | _ => concat frames end in
  let* combined := lift (NewsApi.clean_and_merge existing new_data) in
  write_file to_csv OUT_FILE combined;;
  print (SavedLine OUT_FILE (length (rows combined))).

Definition main : M raw unit := main_for DEFAULT_QUERIES.

End Run.

End NewsApiRun.

(** * Properties *)

(** ** Frame operations *)

Lemma list_difference_nil_r (l : list string) : list_difference l [] = l.
Proof.
  induction l as [|c l IH]; simpl; [done|].
  destruct (decide_rel elem_of c []) as [H|_]; [by apply elem_of_nil in H|].
  by rewrite IH.
Qed.

Lemma concat_pair (a b : DataFrame) :
  columns (concat [a; b]) = columns a ++ list_difference (columns b) (columns a)
  ∧ rows (concat [a; b]) = rows a ++ rows b.
Proof.
  unfold concat, concat2; simpl. by rewrite list_difference_nil_r.
Qed.

Lemma elem_of_concat_columns (a b : DataFrame) (c : string) :
  c ∈ columns (concat [a; b]) ↔ c ∈ columns a ∨ c ∈ columns b.
Proof.
  destruct (concat_pair a b) as [-> _].
  rewrite elem_of_app, list_elem_of_difference.
  destruct (decide (c ∈ columns a)); naive_solver.
Qed.

Lemma check_labels_ok (subset : list string) (df : DataFrame) :
  Forall (λ c, c ∈ columns df) subset → check_labels subset df = Ok ().
Proof.
  intros Hall. unfold check_labels.
  destruct (list_difference subset (columns df)) as [|c l] eqn:E; [done|].
  assert (Hc : c ∈ list_difference subset (columns df)) by (rewrite E; left).
  apply list_elem_of_difference in Hc as [Hc Hn].
  rewrite Forall_forall in Hall. by destruct Hn; apply Hall.
Qed.

Lemma check_labels_raise (subset : list string) (df : DataFrame) (c : string) :
  c ∈ subset → c ∉ columns df →
  check_labels subset df = Raise (KeyError (list_difference subset (columns df))).
Proof.
  intros Hc Hn. unfold check_labels.
  destruct (list_difference subset (columns df)) as [|c' l] eqn:E; [|done].
  assert (Hin : c ∈ list_difference subset (columns df))
    by (apply list_elem_of_difference; done).
  rewrite E in Hin. by apply elem_of_nil in Hin.
Qed.

Lemma has_cells_spec (subset : list string) (r : row) :
  has_cells subset r = true ↔ ∀ c, c ∈ subset → is_Some (r !! c).
Proof.
  unfold has_cells. rewrite forallb_forall. split.
  - intros H c Hc. apply list_elem_of_In in Hc.
    specialize (H c Hc). by apply bool_decide_eq_true in H.
  - intros H c Hc. apply bool_decide_eq_true, H. by apply list_elem_of_In.
Qed.

Lemma lookup_restrict (cols : list string) (r : row) (c : string) :
  restrict cols r !! c = if decide (c ∈ cols) then r !! c else None.
Proof.
  unfold restrict. destruct (decide (c ∈ cols)) as [Hc|Hc].
  - destruct (r !! c) as [v|] eqn:E.
    + by apply map_lookup_filter_Some.
    + apply map_lookup_filter_None. left. done.
  - apply map_lookup_filter_None. right. intros v _. done.
Qed.

(** ** Keeping the first row of every key *)

Section KeepFirst.

Variable subset : list string.

Lemma keep_first_elem_of seen l r :
  r ∈ keep_first subset seen l → r ∈ l ∧ dup_key subset r ∉ seen.
Proof.
  revert seen. induction l as [|x l IH]; intros seen; simpl.
  - intros H. by apply elem_of_nil in H.
  - destruct (decide (dup_key subset x ∈ seen)) as [Hx|Hx].
    + intros H. destruct (IH _ H). split; [by right|done].
    + intros [->|H]%elem_of_cons.
      * split; [by left|done].
      * destruct (IH _ H) as [? Hn]. split; [by right|].
        intros ?. apply Hn. by right.
Qed.

Lemma keep_first_NoDup seen l :
  NoDup (dup_key subset <$> keep_first subset seen l).
Proof.
  revert seen. induction l as [|x l IH]; intros seen; simpl.
  - constructor.
  - destruct (decide (dup_key subset x ∈ seen)); [apply IH|].
    rewrite ?fmap_cons. apply NoDup_cons. split; [|apply IH].
    intros (r & Hk & Hr)%list_elem_of_fmap.
    apply keep_first_elem_of in Hr as [_ Hn]. apply Hn. rewrite <- Hk. by left.
Qed.

Lemma keep_first_keys seen l k :
  k ∈ dup_key subset <$> keep_first subset seen l
  ↔ k ∈ dup_key subset <$> l ∧ k ∉ seen.
Proof.
  revert seen. induction l as [|x l IH]; intros seen; simpl.
  - rewrite elem_of_nil. naive_solver.
  - destruct (decide (dup_key subset x ∈ seen)) as [Hx|Hx].
    + rewrite IH, ?fmap_cons, elem_of_cons. naive_solver.
    + rewrite ?fmap_cons, !elem_of_cons, IH, not_elem_of_cons.
      destruct (decide (k = dup_key subset x)); naive_solver.
Qed.

Lemma keep_first_first seen pre r post :
  dup_key subset r ∉ seen →
  dup_key subset r ∉ dup_key subset <$> pre →
  r ∈ keep_first subset seen (pre ++ r :: post).
Proof.
  revert seen. induction pre as [|x pre IH]; intros seen Hs Hp; simpl.
  - rewrite decide_False by done. by left.
  - rewrite ?fmap_cons, not_elem_of_cons in Hp. destruct Hp as [Hne Hp].
    destruct (decide (dup_key subset x ∈ seen)).
    + by apply IH.
    + right. apply IH; [|done]. rewrite not_elem_of_cons. done.
Qed.

Lemma keep_first_unique seen l r1 r2 :
  r1 ∈ keep_first subset seen l → r2 ∈ keep_first subset seen l →
  dup_key subset r1 = dup_key subset r2 → r1 = r2.
Proof.
  intros H1 H2 Hk.
  pose proof (keep_first_NoDup seen l) as Hnd.
  apply list_elem_of_lookup in H1 as [i Hi], H2 as [j Hj].
  assert (i = j) as ->.
  { eapply NoDup_lookup; [exact Hnd| |].
    - rewrite list_lookup_fmap, Hi. reflexivity.
    - rewrite list_lookup_fmap, Hj. simpl. by rewrite Hk. }
  congruence.
Qed.

End KeepFirst.

Lemma dup_key_url (r1 r2 : row) :
  dup_key ["url"] r1 = dup_key ["url"] r2 ↔ r1 !! "url" = r2 !! "url".
Proof. unfold dup_key; simpl. split; [by intros [= ->]|by intros ->]. Qed.

(** ** Trimming *)

Lemma lstrip_idem (s : string) : lstrip (lstrip s) = lstrip s.
Proof.
  induction s as [|a s IH]; simpl; [done|].
  destruct (is_space a) eqn:E; [done|]. simpl. by rewrite E.
Qed.

Lemma rstrip_idem (s : string) : rstrip (rstrip s) = rstrip s.
Proof.
  induction s as [|a s IH]; simpl; [done|].
  destruct (rstrip s) as [|b t] eqn:E.
  - destruct (is_space a) eqn:Ea; simpl; [done|]. by rewrite Ea.
  - change (rstrip (String a (String b t))) with
      (match rstrip (String b t) with
       | EmptyString => if is_space a then EmptyString else String a EmptyString
       | t' => String a t'
       end).
    by rewrite IH.
Qed.

Lemma rstrip_lstrip (s : string) : rstrip s = s → rstrip (lstrip s) = lstrip s.
Proof.
  induction s as [|a s IH]; simpl; [done|].
  intros H. destruct (is_space a) eqn:Ea.
  - apply IH. destruct (rstrip s) as [|b t] eqn:E.
    + discriminate.
    + by injection H.
  - simpl. rewrite Ea. exact H.
Qed.

Lemma strip_idem (s : string) : strip (strip s) = strip s.
Proof.
  unfold strip.
  rewrite (rstrip_lstrip (rstrip s)) by apply rstrip_idem.
  apply lstrip_idem.
Qed.

(** ** The GDELT merge, stage by stage *)

(** [keep_cols] *)
Definition gdelt_columns (existing new : DataFrame) : list string :=
  filter (λ c, c ∈ columns (concat [existing; new])) Gdelt.key_columns.

Definition fill_content (r : row) : row :=
  match r !! "content" with
  | Some _ => r
  | None => <["content" := ""]> r
  end.

Definition gdelt_rows (existing new : DataFrame) : list row :=
  let keep := gdelt_columns existing new in
  let l0 := restrict keep <$> (rows existing ++ rows new) in
  let l1 := if decide ("url" ∈ keep)
            then filter (λ r, has_cells ["url"] r = true) (keep_first ["url"] [] l0)
            else l0 in
  let l2 := if decide ("title" ∈ keep)
            then filter (λ r, has_cells ["title"] r = true) l1
            else l1 in
  if decide ("content" ∈ keep) then fill_content <$> l2 else l2.

Lemma check_labels_single (c : string) (df : DataFrame) :
  c ∈ columns df → check_labels [c] df = Ok ().
Proof. intros H. apply check_labels_ok. by constructor. Qed.

(** The GDELT merge always returns, and what it returns. *)
Lemma gdelt_merge_unfold (existing new : DataFrame) :
  Gdelt.clean_and_merge existing new
  = Ok (mkFrame (gdelt_columns existing new) (gdelt_rows existing new)).
Proof.
  unfold Gdelt.clean_and_merge, gdelt_rows, select.
  fold (gdelt_columns existing new).
  destruct (concat_pair existing new) as [_ ->].
  set (keep := gdelt_columns existing new).
  cbn [columns rows].
  unfold drop_duplicates, dropna, mbind, result_bind; simpl.
  destruct (decide ("url" ∈ keep)) as [Hu|Hu]; simpl.
  - rewrite !check_labels_single by done. simpl.
    destruct (decide ("title" ∈ keep)) as [Ht|Ht]; simpl.
    + rewrite check_labels_single by done. simpl.
      destruct (decide ("content" ∈ keep)); reflexivity.
    + destruct (decide ("content" ∈ keep)); reflexivity.
  - destruct (decide ("title" ∈ keep)) as [Ht|Ht]; simpl.
    + rewrite check_labels_single by done. simpl.
      destruct (decide ("content" ∈ keep)); reflexivity.
    + destruct (decide ("content" ∈ keep)); reflexivity.
Qed.

(** ** The NewsAPI merge, stage by stage *)

(** What the clean-up loop does to one row of a frame with columns
    [dfcols]. *)
Definition clean_row (cols dfcols : list string) (r : row) : row :=
  foldl (λ (r : row) col,
           if decide (col ∈ dfcols)
           then <[col := strip (astype_str (r !! col))]> r
           else r) r cols.

Lemma strip_columns_unfold (cols : list string) (df : DataFrame) :
  NewsApi.strip_columns cols df
  = mkFrame (columns df) (clean_row cols (columns df) <$> rows df).
Proof.
  revert df. induction cols as [|c cols IH]; intros [dfcols l]; simpl.
  - f_equal. by rewrite list_fmap_id.
  - unfold NewsApi.strip_columns in *. simpl.
    destruct (decide (c ∈ dfcols)) as [Hc|Hc].
    + rewrite IH. unfold strip_column. simpl. f_equal.
      rewrite <- list_fmap_compose. apply list_fmap_ext.
      intros i r _. simpl. by rewrite decide_True.
    + rewrite IH. simpl. f_equal. apply list_fmap_ext.
      intros i r _. simpl. by rewrite decide_False.
Qed.

Lemma lookup_clean_row (cols dfcols : list string) (r : row) (c : string) :
  clean_row cols dfcols r !! c
  = if decide (c ∈ cols ∧ c ∈ dfcols)
    then Some (strip (astype_str (r !! c)))
    else r !! c.
Proof.
  unfold clean_row. revert r. induction cols as [|c0 cols IH]; intros r; cbn [foldl].
  - rewrite decide_False; [done|]. intros [H _]. by apply elem_of_nil in H.
  - rewrite IH.
    destruct (decide (c0 ∈ dfcols)) as [H0|H0].
    + destruct (decide (c = c0)) as [->|Hne].
      * rewrite lookup_insert_eq. simpl.
        rewrite (decide_True (P := c0 ∈ c0 :: cols ∧ _)) by (split; [left|done]).
        rewrite strip_idem. by destruct (decide (c0 ∈ cols ∧ c0 ∈ dfcols)).
      * rewrite lookup_insert_ne by done.
        destruct (decide (c ∈ cols ∧ c ∈ dfcols)) as [[? ?]|Hn].
        -- rewrite decide_True; [done|]. split; [by right|done].
        -- rewrite decide_False; [done|].
           intros [[?|?]%elem_of_cons ?]; [done|]. by apply Hn.
    + destruct (decide (c ∈ cols ∧ c ∈ dfcols)) as [[? ?]|Hn].
      * rewrite decide_True; [done|]. split; [by right|done].
      * rewrite decide_False; [done|].
        intros [[->|?]%elem_of_cons ?]; [done|]. by apply Hn.
Qed.

(** The rows that survive [dropna] and [drop_duplicates], before trimming. *)
Definition newsapi_kept (existing new_data : DataFrame) : list row :=
  keep_first ["url"] []
    (filter (λ r, has_cells ["url"; "title"] r = true)
            (rows existing ++ rows new_data)).

Lemma newsapi_merge_unfold (existing new_data : DataFrame) :
  "url" ∈ columns (concat [existing; new_data]) →
  "title" ∈ columns (concat [existing; new_data]) →
  NewsApi.clean_and_merge existing new_data
  = Ok (mkFrame (columns (concat [existing; new_data]))
          (clean_row NewsApi.text_columns (columns (concat [existing; new_data]))
             <$> newsapi_kept existing new_data)).
Proof.
  intros Hu Ht. unfold NewsApi.clean_and_merge, newsapi_kept.
  destruct (concat_pair existing new_data) as [_ <-].
  set (combined := concat [existing; new_data]) in *.
  unfold dropna, drop_duplicates, mbind, result_bind.
  rewrite check_labels_ok by (repeat constructor; done).
  rewrite check_labels_single by done.
  by rewrite strip_columns_unfold.
Qed.

Lemma newsapi_merge_raise (existing new_data : DataFrame) (c : string) :
  c ∈ ["url"; "title"] → c ∉ columns (concat [existing; new_data]) →
  NewsApi.clean_and_merge existing new_data
  = Raise (KeyError (list_difference ["url"; "title"]
                       (columns (concat [existing; new_data])))).
Proof.
  intros Hc Hn. unfold NewsApi.clean_and_merge, dropna, mbind, result_bind.
  by rewrite (check_labels_raise _ _ c).
Qed.

Lemma has_cells_single (c : string) (r : row) :
  has_cells [c] r = true ↔ is_Some (r !! c).
Proof.
  rewrite has_cells_spec. split.
  - intros H. apply H. by left.
  - intros H c' ->%list_elem_of_singleton. done.
Qed.

Lemma has_cells_url_title (r : row) :
  has_cells ["url"; "title"] r = true
  ↔ is_Some (r !! "url") ∧ is_Some (r !! "title").
Proof.
  rewrite has_cells_spec. split.
  - intros H. split; apply H; [left|right; left].
  - intros [Hu Ht] c [->|[->|H]%elem_of_cons]%elem_of_cons; [done|done|].
    by apply elem_of_nil in H.
Qed.

(** The rows of the GDELT frame before and after de-duplication. *)
Definition gdelt_selected (existing new : DataFrame) : list row :=
  restrict (gdelt_columns existing new) <$> (rows existing ++ rows new).

Definition gdelt_deduplicated (existing new : DataFrame) : list row :=
  if decide ("url" ∈ gdelt_columns existing new)
  then keep_first ["url"] [] (gdelt_selected existing new)
  else gdelt_selected existing new.

(** The last step of the GDELT merge on one row. *)
Definition gdelt_finish (existing new : DataFrame) (r : row) : row :=
  if decide ("content" ∈ gdelt_columns existing new) then fill_content r else r.

Lemma lookup_fill_content (r : row) (c : string) :
  c ≠ "content" → fill_content r !! c = r !! c.
Proof.
  intros Hc. unfold fill_content. destruct (r !! "content"); [done|].
  by rewrite lookup_insert_ne.
Qed.

Lemma lookup_gdelt_finish (existing new : DataFrame) (r : row) (c : string) :
  c ≠ "content" → gdelt_finish existing new r !! c = r !! c.
Proof.
  intros Hc. unfold gdelt_finish. case_decide; [|done].
  by apply lookup_fill_content.
Qed.

Lemma elem_of_gdelt_rows (existing new : DataFrame) (r : row) :
  r ∈ gdelt_rows existing new
  ↔ ∃ r1, r = gdelt_finish existing new r1
          ∧ r1 ∈ gdelt_deduplicated existing new
          ∧ ("url" ∈ gdelt_columns existing new → is_Some (r1 !! "url"))
          ∧ ("title" ∈ gdelt_columns existing new → is_Some (r1 !! "title")).
Proof.
  unfold gdelt_rows, gdelt_finish, gdelt_deduplicated, gdelt_selected.
  set (keep := gdelt_columns existing new).
  set (l0 := restrict keep <$> rows existing ++ rows new).
  cbv zeta.
  destruct (decide ("url" ∈ keep)) as [Hu|Hu];
    destruct (decide ("title" ∈ keep)) as [Ht|Ht];
    destruct (decide ("content" ∈ keep)) as [Hc|Hc];
    rewrite ?list_elem_of_fmap;
    repeat setoid_rewrite list_elem_of_filter;
    repeat setoid_rewrite has_cells_single;
    naive_solver.
Qed.

Lemma elem_of_gdelt_deduplicated (existing new : DataFrame) (r1 : row) :
  r1 ∈ gdelt_deduplicated existing new →
  ∃ r0, r0 ∈ rows existing ++ rows new
        ∧ r1 = restrict (gdelt_columns existing new) r0.
Proof.
  unfold gdelt_deduplicated, gdelt_selected. intros H.
  assert (H' : r1 ∈ restrict (gdelt_columns existing new)
                       <$> rows existing ++ rows new).
  { case_decide; [|done]. by apply keep_first_elem_of in H as [H _]. }
  apply list_elem_of_fmap in H' as (r0 & -> & H0). eauto.
Qed.

Lemma ok_inj {A} (a b : A) : Ok a = Ok b → a = b.
Proof. by intros [= ->]. Qed.

(** ** The claims on the merge *)

(** C10. The NewsAPI merge is partial: when the concatenation of its two
    arguments lacks the [url] or the [title] column, [dropna] raises a
    [KeyError] naming the absent labels, and no frame is returned. *)
Theorem newsapi_merge_key_error (existing new_data : DataFrame) :
  "url" ∉ columns (concat [existing; new_data])
  ∨ "title" ∉ columns (concat [existing; new_data]) →
  ∃ labels, labels ≠ []
    ∧ NewsApi.clean_and_merge existing new_data = Raise (KeyError labels).
Proof.
  intros H.
  assert (∃ c, c ∈ ["url"; "title"] ∧ c ∉ columns (concat [existing; new_data]))
    as (c & Hc & Hn).
  { destruct H; [exists "url"|exists "title"]; split; try done.
    - left.
    - right; left. }
  eexists. split; [|by apply (newsapi_merge_raise _ _ c)].
  intros E.
  assert (Hin : c ∈ list_difference ["url"; "title"]
                      (columns (concat [existing; new_data])))
    by (by apply list_elem_of_difference).
  rewrite E in Hin. by apply elem_of_nil in Hin.
Qed.

(** With no stored file and no article fetched both arguments are
    [pd.DataFrame()], and the merge raises. *)
Lemma newsapi_merge_key_error_witness :
  ∃ labels, labels ≠ []
    ∧ NewsApi.clean_and_merge empty_frame empty_frame = Raise (KeyError labels).
Proof.
  apply (newsapi_merge_key_error empty_frame empty_frame).
  left. vm_compute. intros H. inversion H.
Defined.

Lemma newsapi_merge_of_empty_frames :
  NewsApi.clean_and_merge empty_frame empty_frame
  = Raise (KeyError ["url"; "title"]).
Proof. reflexivity. Qed.

(** The [url] cells of a frame, in row order, missing cells left out. *)
Definition urls (df : DataFrame) : list string :=
  omap (λ r : row, r !! "url") (rows df).

Lemma NoDup_omap_fmap {A B} (f : A → option B) (l : list A) :
  NoDup (f <$> l) → NoDup (omap f l).
Proof.
  induction l as [|x l IH]; simpl; [constructor|].
  intros [Hx Hl]%NoDup_cons. destruct (f x) as [b|] eqn:E; [|by apply IH].
  apply NoDup_cons. split; [|by apply IH].
  intros (y & Hy & Hfy)%list_elem_of_omap. apply Hx.
  apply list_elem_of_fmap. exists y. by rewrite Hfy.
Qed.

Lemma omap_all_None {A B} (f : A → option B) (l : list A) :
  (∀ x, x ∈ l → f x = None) → omap f l = [].
Proof.
  induction l as [|x l IH]; simpl; [done|]. intros H.
  rewrite (H x) by left. apply IH. intros y Hy. apply H. by right.
Qed.

Lemma keep_first_url_NoDup (l : list row) :
  NoDup ((λ r : row, r !! "url") <$> keep_first ["url"] [] l).
Proof.
  apply (NoDup_fmap_1 (λ c : option string, [c])).
  rewrite <- list_fmap_compose. apply (keep_first_NoDup ["url"]).
Qed.

Lemma NoDup_fmap_filter {A B} (f : A → B) (P : A → Prop)
    `{∀ x, Decision (P x)} (l : list A) :
  NoDup (f <$> l) → NoDup (f <$> filter P l).
Proof.
  intros Hnd. apply (sublist_NoDup _ _ Hnd).
  apply fmap_sublist, sublist_filter.
Qed.

(** The GDELT merge leaves no two rows with the same [url]. *)
Lemma gdelt_merge_urls_unique (existing new out : DataFrame) :
  Gdelt.clean_and_merge existing new = Ok out → NoDup (urls out).
Proof.
  rewrite gdelt_merge_unfold. intros <-%ok_inj. unfold urls; simpl.
  destruct (decide ("url" ∈ gdelt_columns existing new)) as [Hu|Hu].
  - apply NoDup_omap_fmap.
    assert (Hfin : ∀ l : list row,
      (λ r : row, r !! "url") <$> (fill_content <$> l)
      = (λ r : row, r !! "url") <$> l).
    { intros l. rewrite <- list_fmap_compose. apply list_fmap_ext.
      intros i r _. simpl. by apply lookup_fill_content. }
    unfold gdelt_rows. cbv zeta.
    destruct (decide ("url" ∈ gdelt_columns existing new)) as [_|?]; [|done].
    destruct (decide ("title" ∈ gdelt_columns existing new));
      destruct (decide ("content" ∈ gdelt_columns existing new));
      rewrite ?Hfin;
      repeat apply NoDup_fmap_filter; apply keep_first_url_NoDup.
  - rewrite omap_all_None; [constructor|]. intros r Hr.
    apply elem_of_gdelt_rows in Hr as (r1 & -> & Hr1 & _).
    rewrite lookup_gdelt_finish by done.
    apply elem_of_gdelt_deduplicated in Hr1 as (r0 & _ & ->).
    rewrite lookup_restrict. by rewrite decide_False.
Qed.

(** Before its clean-up loop the NewsAPI merge holds no two rows with the
    same [url] either. *)
Lemma newsapi_kept_urls_unique (existing new_data : DataFrame) :
  NoDup ((λ r : row, r !! "url") <$> newsapi_kept existing new_data).
Proof. apply keep_first_url_NoDup. Qed.

(** C1. In the NewsAPI merge the urls are trimmed after the duplicates were
    dropped: two fetched records whose urls differ only in surrounding
    whitespace both survive and leave the merge with one and the same url. *)
Theorem newsapi_merge_repeats_url :
  NewsApi.clean_and_merge empty_frame
    (mkFrame ["url"; "title"]
       [ {[ "url" := "http://a.example/1"; "title" := "first" ]};
         {[ "url" := "http://a.example/1 "; "title" := "second" ]} ])
  = Ok (mkFrame ["url"; "title"]
       [ {[ "url" := "http://a.example/1"; "title" := "first" ]};
         {[ "url" := "http://a.example/1"; "title" := "second" ]} ]).
Proof. vm_compute. reflexivity. Qed.

(** C2, as stated, fails: a record whose title is the empty string passes
    both merges. *)
Lemma merge_keeps_empty_title :
  let new := mkFrame ["url"; "title"]
               [ {[ "url" := "http://a.example/1"; "title" := "" ]} ] in
  Gdelt.clean_and_merge empty_frame new = Ok new
  ∧ NewsApi.clean_and_merge empty_frame new = Ok new.
Proof. split; vm_compute; reflexivity. Qed.

Lemma newsapi_merge_ok_columns (existing new_data out : DataFrame) :
  NewsApi.clean_and_merge existing new_data = Ok out →
  "url" ∈ columns (concat [existing; new_data])
  ∧ "title" ∈ columns (concat [existing; new_data]).
Proof.
  intros H.
  destruct (decide ("url" ∈ columns (concat [existing; new_data]))) as [Hu|Hu].
  - destruct (decide ("title" ∈ columns (concat [existing; new_data])))
      as [Ht|Ht]; [done|].
    rewrite (newsapi_merge_raise _ _ "title") in H; [done|right; left|done].
  - rewrite (newsapi_merge_raise _ _ "url") in H; [done|left|done].
Qed.

Lemma text_columns_url_title :
  "url" ∈ NewsApi.text_columns ∧ "title" ∈ NewsApi.text_columns.
Proof. split; unfold NewsApi.text_columns; set_solver. Qed.

(** A row of the NewsAPI result is the trimmed image of a kept row. *)
Lemma elem_of_newsapi_rows (existing new_data out : DataFrame) (r : row) :
  NewsApi.clean_and_merge existing new_data = Ok out →
  r ∈ rows out ↔
  ∃ r1, r1 ∈ newsapi_kept existing new_data
        ∧ r = clean_row NewsApi.text_columns
                (columns (concat [existing; new_data])) r1.
Proof.
  intros H. destruct (newsapi_merge_ok_columns _ _ _ H) as [Hu Ht].
  rewrite newsapi_merge_unfold in H by done. apply ok_inj in H as <-.
  cbn [rows]. rewrite list_elem_of_fmap. split.
  - intros (r1 & -> & Hr1). eauto.
  - intros (r1 & Hr1 & ->). eauto.
Qed.

Lemma newsapi_clean_url_title (cols : list string) (r : row) :
  "url" ∈ cols → "title" ∈ cols →
  clean_row NewsApi.text_columns cols r !! "url"
    = Some (strip (astype_str (r !! "url")))
  ∧ clean_row NewsApi.text_columns cols r !! "title"
    = Some (strip (astype_str (r !! "title"))).
Proof.
  intros Hu Ht. destruct text_columns_url_title.
  rewrite !lookup_clean_row, !decide_True by done. done.
Qed.

Lemma newsapi_clean_cells (cols : list string) (r : row) (U A : string) :
  "url" ∈ cols → "title" ∈ cols →
  r !! "url" = Some U → r !! "title" = Some A →
  clean_row NewsApi.text_columns cols r !! "url" = Some (strip U)
  ∧ clean_row NewsApi.text_columns cols r !! "title" = Some (strip A).
Proof.
  intros Hu Ht HU HA.
  destruct (newsapi_clean_url_title cols r Hu Ht) as [-> ->].
  by rewrite HU, HA.
Qed.

(** C2, amended. Every record either merge returns stems from a stored or
    new record whose [url] and [title] are present, and carries them: in the
    GDELT merge for each of the two columns the result has, unchanged; in
    the NewsAPI merge always, both trimmed.  A record that lacks one of the
    two is discarded; one whose url or title is the empty text is not. *)
Theorem merge_rows_have_url_and_title (existing new out : DataFrame) (r : row) :
  r ∈ rows out →
  (Gdelt.clean_and_merge existing new = Ok out →
     ∃ r0 : row, r0 ∈ rows existing ++ rows new
       ∧ ("url" ∈ columns out →
          ∃ U, r0 !! "url" = Some U ∧ r !! "url" = Some U)
       ∧ ("title" ∈ columns out →
          ∃ A, r0 !! "title" = Some A ∧ r !! "title" = Some A))
  ∧ (NewsApi.clean_and_merge existing new = Ok out →
     ∃ (r0 : row) (U A : string), r0 ∈ rows existing ++ rows new
       ∧ r0 !! "url" = Some U ∧ r0 !! "title" = Some A
       ∧ r !! "url" = Some (strip U) ∧ r !! "title" = Some (strip A)).
Proof.
  intros Hr. split.
  - rewrite gdelt_merge_unfold. intros <-%ok_inj. cbn [rows columns] in *.
    apply elem_of_gdelt_rows in Hr as (r1 & -> & Hr1 & Hu & Ht).
    apply elem_of_gdelt_deduplicated in Hr1 as (r0 & Hr0 & ->).
    exists r0. split; [done|].
    rewrite !lookup_gdelt_finish by done. split.
    + intros Hc. destruct (Hu Hc) as [U HU]. exists U.
      rewrite lookup_restrict, decide_True in HU by done.
      by rewrite lookup_restrict, decide_True.
    + intros Hc. destruct (Ht Hc) as [A HA]. exists A.
      rewrite lookup_restrict, decide_True in HA by done.
      by rewrite lookup_restrict, decide_True.
  - intros H. destruct (newsapi_merge_ok_columns _ _ _ H) as [Hu Ht].
    apply (elem_of_newsapi_rows _ _ _ r H) in Hr as (r1 & Hr1 & ->).
    unfold newsapi_kept in Hr1. apply keep_first_elem_of in Hr1 as [Hr1 _].
    apply list_elem_of_filter in Hr1 as [[[U HU] [A HA]]%has_cells_url_title Hr1].
    exists r1, U, A. split; [done|]. split; [done|]. split; [done|].
    by apply newsapi_clean_cells.
Qed.

Lemma merge_rows_have_url_and_title_witness :
  let r : row := {[ "url" := "http://a.example/1"; "title" := "first" ]} in
  let new := mkFrame ["url"; "title"] [ {[ "url" := "http://a.example/2" ]}; r ] in
  let out := mkFrame ["url"; "title"] [r] in
  (r ∈ rows out
   ∧ Gdelt.clean_and_merge empty_frame new = Ok out
   ∧ NewsApi.clean_and_merge empty_frame new = Ok out)
  ∧ (∃ r0 : row, r0 ∈ rows empty_frame ++ rows new
       ∧ ("url" ∈ columns out →
          ∃ U, r0 !! "url" = Some U ∧ r !! "url" = Some U)
       ∧ ("title" ∈ columns out →
          ∃ A, r0 !! "title" = Some A ∧ r !! "title" = Some A))
  ∧ (∃ (r0 : row) (U A : string), r0 ∈ rows empty_frame ++ rows new
       ∧ r0 !! "url" = Some U ∧ r0 !! "title" = Some A
       ∧ r !! "url" = Some (strip U) ∧ r !! "title" = Some (strip A)).
Proof.
  intros r new out.
  assert (Hr : r ∈ rows out) by left.
  assert (Hg : Gdelt.clean_and_merge empty_frame new = Ok out)
    by (vm_compute; reflexivity).
  assert (Hn : NewsApi.clean_and_merge empty_frame new = Ok out)
    by (vm_compute; reflexivity).
  destruct (merge_rows_have_url_and_title empty_frame new out r Hr) as [G N].
  exact (conj (conj Hr (conj Hg Hn)) (conj (G Hg) (N Hn))).
Defined.

(** ** Which record survives *)

Lemma elem_of_gdelt_columns (existing new : DataFrame) (c : string) :
  c ∈ gdelt_columns existing new
  ↔ c ∈ Gdelt.key_columns ∧ (c ∈ columns existing ∨ c ∈ columns new).
Proof.
  unfold gdelt_columns.
  rewrite list_elem_of_filter, elem_of_concat_columns. tauto.
Qed.

Lemma key_columns_url_title :
  "url" ∈ Gdelt.key_columns ∧ "title" ∈ Gdelt.key_columns.
Proof. split; unfold Gdelt.key_columns; set_solver. Qed.

Lemma well_formed_column (existing new : DataFrame) (r : row) (c : string) :
  well_formed existing → well_formed new →
  r ∈ rows existing ++ rows new → is_Some (r !! c) →
  c ∈ columns existing ∨ c ∈ columns new.
Proof.
  unfold well_formed. rewrite !Forall_forall.
  intros He Hn [Hr|Hr]%elem_of_app Hc; [left|right]; eauto.
Qed.

(** In the GDELT merge the first row of the concatenation under a url is
    kept, and no other row under that url is. *)
Lemma gdelt_first_row_kept (existing new : DataFrame) (pre post : list row)
    (r : row) (U A : string) :
  "url" ∈ gdelt_columns existing new →
  "title" ∈ gdelt_columns existing new →
  rows existing ++ rows new = pre ++ r :: post →
  r !! "url" = Some U → r !! "title" = Some A →
  (∀ r', r' ∈ pre → r' !! "url" ≠ Some U) →
  let r1 := gdelt_finish existing new (restrict (gdelt_columns existing new) r) in
  r1 ∈ gdelt_rows existing new
  ∧ r1 !! "url" = Some U ∧ r1 !! "title" = Some A
  ∧ ∀ r2, r2 ∈ gdelt_rows existing new → r2 !! "url" = Some U → r2 = r1.
Proof.
  intros Hu Ht Hsplit HU HA Hpre r1.
  set (keep := gdelt_columns existing new) in *.
  assert (Hu1 : restrict keep r !! "url" = Some U)
    by (by rewrite lookup_restrict, decide_True).
  assert (Ht1 : restrict keep r !! "title" = Some A)
    by (by rewrite lookup_restrict, decide_True).
  assert (Hin : restrict keep r ∈ gdelt_deduplicated existing new).
  { unfold gdelt_deduplicated, gdelt_selected. fold keep.
    rewrite decide_True by done. rewrite Hsplit, fmap_app, fmap_cons.
    apply keep_first_first; [apply not_elem_of_nil|].
    rewrite <- list_fmap_compose.
    intros (r' & Hk & Hr')%list_elem_of_fmap. simpl in Hk.
    apply dup_key_url in Hk. rewrite Hu1 in Hk.
    rewrite lookup_restrict, decide_True in Hk by done.
    by apply (Hpre r'). }
  split; [|split; [|split]].
  - apply elem_of_gdelt_rows. exists (restrict keep r).
    split; [done|]. split; [done|]. split; intros _; eauto.
  - unfold r1. by rewrite lookup_gdelt_finish.
  - unfold r1. by rewrite lookup_gdelt_finish.
  - intros r2 (r3 & -> & Hr3 & _)%elem_of_gdelt_rows H2.
    rewrite lookup_gdelt_finish in H2 by done. unfold r1. f_equal.
    unfold gdelt_deduplicated in Hr3, Hin. fold keep in Hr3, Hin.
    rewrite decide_True in Hr3, Hin by done.
    apply (keep_first_unique ["url"] _ _ _ _ Hr3 Hin).
    apply dup_key_url. by rewrite H2, Hu1.
Qed.

(** In the NewsAPI merge the first row of the concatenation that has a url
    and a title is kept for its url, and no other row under that url is. *)
Lemma newsapi_first_valid_kept (existing new_data : DataFrame)
    (pre post : list row) (r : row) (U A : string) :
  rows existing ++ rows new_data = pre ++ r :: post →
  r !! "url" = Some U → r !! "title" = Some A →
  (∀ r', r' ∈ pre → r' !! "url" = Some U → r' !! "title" = None) →
  r ∈ newsapi_kept existing new_data
  ∧ ∀ r2, r2 ∈ newsapi_kept existing new_data → r2 !! "url" = Some U → r2 = r.
Proof.
  intros Hsplit HU HA Hpre.
  assert (Hin : r ∈ newsapi_kept existing new_data).
  { unfold newsapi_kept. rewrite Hsplit, filter_app, filter_cons.
    rewrite decide_True by (apply has_cells_url_title; rewrite HU, HA; eauto).
    apply keep_first_first; [apply not_elem_of_nil|].
    intros (r' & Hk & Hr')%list_elem_of_fmap.
    apply dup_key_url in Hk. rewrite HU in Hk.
    apply list_elem_of_filter in Hr' as [[_ Ht]%has_cells_url_title Hr'].
    rewrite (Hpre r' Hr') in Ht by done. by destruct Ht. }
  split; [done|]. intros r2 Hr2 H2.
  apply (keep_first_unique ["url"] _ _ _ _ Hr2 Hin).
  apply dup_key_url. by rewrite H2, HU.
Qed.

(** C3, as stated, fails twice.  The NewsAPI merge trims the stored title, so
    the title [" Rally"] of the existing record is not the title the result
    holds; and in both merges a stored record loses to an earlier stored
    record with its url. *)
Lemma existing_title_not_retained :
  let u := "http://a.example/1" in
  (NewsApi.clean_and_merge
     (mkFrame ["url"; "title"] [ {[ "url" := u; "title" := " Rally" ]} ])
     (mkFrame ["url"; "title"] [ {[ "url" := u; "title" := "Other" ]} ])
   = Ok (mkFrame ["url"; "title"] [ {[ "url" := u; "title" := "Rally" ]} ]))
  ∧ (let existing :=
       mkFrame ["url"; "title"]
         [ {[ "url" := u; "title" := "Earlier" ]};
           {[ "url" := u; "title" := "Rally" ]} ] in
     let new := mkFrame ["url"; "title"] [ {[ "url" := u; "title" := "Other" ]} ] in
     let out := mkFrame ["url"; "title"] [ {[ "url" := u; "title" := "Earlier" ]} ] in
     Gdelt.clean_and_merge existing new = Ok out
     ∧ NewsApi.clean_and_merge existing new = Ok out).
Proof. repeat split; vm_compute; reflexivity. Qed.

(** C3, amended. The first row of the concatenation (the rows of [existing],
    then the rows of [new]) under a url [U], having a title [A], is the row
    each merge keeps for [U]: a stored record wins over every fetched record
    with its url, and the earliest of several fetched records wins.  The
    GDELT result holds it with url [U] and title [A] and holds no other row
    with url [U]; the NewsAPI merge keeps it alone for [U] before its
    clean-up and returns it with url and title trimmed. *)
Theorem merge_first_record_wins (existing new : DataFrame)
    (pre post : list row) (r : row) (U A : string) :
  well_formed existing → well_formed new →
  rows existing ++ rows new = pre ++ r :: post →
  r !! "url" = Some U → r !! "title" = Some A →
  (∀ r', r' ∈ pre → r' !! "url" ≠ Some U) →
  (∃ out r1, Gdelt.clean_and_merge existing new = Ok out
     ∧ r1 ∈ rows out ∧ r1 !! "url" = Some U ∧ r1 !! "title" = Some A
     ∧ ∀ r2, r2 ∈ rows out → r2 !! "url" = Some U → r2 = r1)
  ∧ (∃ out r1, NewsApi.clean_and_merge existing new = Ok out
     ∧ rows out = clean_row NewsApi.text_columns (columns out)
                    <$> newsapi_kept existing new
     ∧ r ∈ newsapi_kept existing new
     ∧ (∀ r2, r2 ∈ newsapi_kept existing new → r2 !! "url" = Some U → r2 = r)
     ∧ r1 ∈ rows out
     ∧ r1 !! "url" = Some (strip U) ∧ r1 !! "title" = Some (strip A)).
Proof.
  intros We Wn Hsplit HU HA Hpre.
  assert (Hr : r ∈ rows existing ++ rows new).
  { rewrite Hsplit. apply elem_of_app. right. left. }
  assert (Hcu : "url" ∈ columns existing ∨ "url" ∈ columns new).
  { apply (well_formed_column _ _ r); rewrite ?HU; eauto. }
  assert (Hct : "title" ∈ columns existing ∨ "title" ∈ columns new).
  { apply (well_formed_column _ _ r); rewrite ?HA; eauto. }
  destruct key_columns_url_title as [Hku Hkt]. split.
  - destruct (gdelt_first_row_kept existing new pre post r U A)
      as (Hin & Hu1 & Ht1 & Huniq); try done.
    { by apply elem_of_gdelt_columns. }
    { by apply elem_of_gdelt_columns. }
    eexists _, _. split; [apply gdelt_merge_unfold|]. simpl.
    split; [exact Hin|]. split; [exact Hu1|]. split; [exact Ht1|exact Huniq].
  - apply elem_of_concat_columns in Hcu, Hct.
    destruct (newsapi_first_valid_kept existing new pre post r U A)
      as [Hin Huniq]; try done.
    { intros r' Hr' Hu'. by destruct (Hpre r' Hr'). }
    destruct (newsapi_clean_cells _ r U A Hcu Hct HU HA) as [Eu Et].
    eexists _, _. split; [by apply newsapi_merge_unfold|]. simpl.
    split; [done|]. split; [done|]. split; [done|].
    split; [|split; [exact Eu|exact Et]].
    apply list_elem_of_fmap. eauto.
Qed.

Lemma merge_first_record_wins_witness :
  let u := "http://a.example/1" in
  let r : row := {[ "url" := u; "title" := "Rally" ]} in
  let existing := mkFrame ["url"; "title"] [r] in
  let new := mkFrame ["url"; "title"] [ {[ "url" := u; "title" := "Other" ]} ] in
  (∃ out r1, Gdelt.clean_and_merge existing new = Ok out
     ∧ r1 ∈ rows out ∧ r1 !! "url" = Some u ∧ r1 !! "title" = Some "Rally"
     ∧ ∀ r2, r2 ∈ rows out → r2 !! "url" = Some u → r2 = r1)
  ∧ (∃ out r1, NewsApi.clean_and_merge existing new = Ok out
     ∧ rows out = clean_row NewsApi.text_columns (columns out)
                    <$> newsapi_kept existing new
     ∧ r ∈ newsapi_kept existing new
     ∧ (∀ r2, r2 ∈ newsapi_kept existing new → r2 !! "url" = Some u → r2 = r)
     ∧ r1 ∈ rows out
     ∧ r1 !! "url" = Some (strip u) ∧ r1 !! "title" = Some (strip "Rally")).
Proof.
  intros u r existing new.
  apply (merge_first_record_wins existing new [] [ {[ "url" := u; "title" := "Other" ]} ] r u "Rally").
  - constructor; [|constructor]. intros c [v Hv].
    destruct (decide (c = "url")) as [->|?]; [left|].
    destruct (decide (c = "title")) as [->|?]; [right; left|].
    unfold r in Hv. rewrite lookup_insert_ne, lookup_singleton_ne in Hv by done.
    discriminate.
  - constructor; [|constructor]. intros c [v Hv].
    destruct (decide (c = "url")) as [->|?]; [left|].
    destruct (decide (c = "title")) as [->|?]; [right; left|].
    rewrite lookup_insert_ne, lookup_singleton_ne in Hv by done.
    discriminate.
  - reflexivity.
  - reflexivity.
  - reflexivity.
  - intros r' Hr'. by apply elem_of_nil in Hr'.
Defined.

(** ** Filtering before de-duplication *)

(** C4, as stated, fails: a record with an empty title is not discarded, so
    when it is the first occurrence of its url it is the one either merge
    keeps, and the later record with a title is dropped as its duplicate. *)
Lemma empty_title_first_occurrence_wins :
  let u := "http://a.example/1" in
  let new := mkFrame ["url"; "title"]
               [ {[ "url" := u; "title" := "" ]};
                 {[ "url" := u; "title" := "Rally" ]} ] in
  let out := mkFrame ["url"; "title"] [ {[ "url" := u; "title" := "" ]} ] in
  Gdelt.clean_and_merge empty_frame new = Ok out
  ∧ NewsApi.clean_and_merge empty_frame new = Ok out.
Proof. split; vm_compute; reflexivity. Qed.

(** C4, amended. The NewsAPI merge discards the rows with a missing [url] or
    [title] before it drops duplicates: when every earlier occurrence of a
    url [U] lacks its title, the first row under [U] that has one is returned
    (url and title trimmed). *)
Theorem newsapi_missing_title_dropped_before_dedup
    (existing new_data out : DataFrame) (pre post : list row) (r : row)
    (U A : string) :
  NewsApi.clean_and_merge existing new_data = Ok out →
  rows existing ++ rows new_data = pre ++ r :: post →
  r !! "url" = Some U → r !! "title" = Some A →
  (∀ r', r' ∈ pre → r' !! "url" = Some U → r' !! "title" = None) →
  ∃ r1, r1 ∈ rows out
        ∧ r1 !! "url" = Some (strip U) ∧ r1 !! "title" = Some (strip A).
Proof.
  intros Hok Hsplit HU HA Hpre.
  destruct (newsapi_merge_ok_columns _ _ _ Hok) as [Hcu Hct].
  destruct (newsapi_first_valid_kept existing new_data pre post r U A)
    as [Hin _]; try done.
  destruct (newsapi_clean_cells _ r U A Hcu Hct HU HA) as [Eu Et].
  eexists. split; [|split; [exact Eu|exact Et]].
  apply (elem_of_newsapi_rows _ _ _ _ Hok). eauto.
Qed.

Lemma newsapi_missing_title_dropped_before_dedup_witness :
  let u := "http://a.example/1" in
  let untitled : row := {[ "url" := u ]} in
  let r : row := {[ "url" := u; "title" := "Rally" ]} in
  let new_data := mkFrame ["url"; "title"] [untitled; r] in
  NewsApi.clean_and_merge empty_frame new_data
    = Ok (mkFrame ["url"; "title"] [r])
  ∧ ∃ r1, r1 ∈ [r] ∧ r1 !! "url" = Some (strip u)
          ∧ r1 !! "title" = Some (strip "Rally").
Proof.
  intros u untitled r new_data.
  assert (Hok : NewsApi.clean_and_merge empty_frame new_data
                = Ok (mkFrame ["url"; "title"] [r]))
    by (vm_compute; reflexivity).
  split; [exact Hok|].
  apply (newsapi_missing_title_dropped_before_dedup empty_frame new_data
           (mkFrame ["url"; "title"] [r]) [untitled] [] r u "Rally" Hok).
  - reflexivity.
  - reflexivity.
  - reflexivity.
  - intros r' ->%list_elem_of_singleton _. reflexivity.
Defined.

(** In the GDELT merge the duplicates are dropped first: the row without a
    title is kept for its url, then discarded for lacking a title, and the
    url is lost. *)
Lemma gdelt_first_occurrence_without_title :
  let u := "http://a.example/1" in
  Gdelt.clean_and_merge empty_frame
    (mkFrame ["url"; "title"]
       [ {[ "url" := u ]}; {[ "url" := u; "title" := "Rally" ]} ])
  = Ok (mkFrame ["url"; "title"] []).
Proof. vm_compute. reflexivity. Qed.


(** ** More list facts *)

Lemma keep_first_sublist (subset : list string)
    (seen : list (list (option string))) (l : list row) :
  keep_first subset seen l `sublist_of` l.
Proof.
  revert seen. induction l as [|r l IH]; intros seen; simpl.
  - constructor.
  - destruct (decide (dup_key subset r ∈ seen)).
    + apply sublist_cons, IH.
    + apply sublist_skip, IH.
Qed.

Lemma sublist_omap {A B} (f : A → option B) (l1 l2 : list A) :
  l1 `sublist_of` l2 → omap f l1 `sublist_of` omap f l2.
Proof.
  induction 1 as [|x l1 l2 _ IH|x l1 l2 _ IH]; simpl.
  - constructor.
  - destruct (f x); [by apply sublist_skip|done].
  - destruct (f x); [by apply sublist_cons|done].
Qed.

Lemma keep_first_all_distinct (subset : list string)
    (seen : list (list (option string))) (l : list row) :
  NoDup (dup_key subset <$> l) →
  (∀ r, r ∈ l → dup_key subset r ∉ seen) →
  keep_first subset seen l = l.
Proof.
  revert seen. induction l as [|r l IH]; intros seen Hnd Hseen; simpl; [done|].
  rewrite fmap_cons in Hnd. apply NoDup_cons in Hnd as [Hr Hnd].
  rewrite decide_False by (apply Hseen; left). f_equal.
  apply IH; [done|]. intros r' Hr'. rewrite not_elem_of_cons. split.
  - intros Heq. apply Hr. rewrite <- Heq. apply list_elem_of_fmap. eauto.
  - apply Hseen. by right.
Qed.

Lemma filter_all {A} (P : A → Prop) `{∀ x, Decision (P x)} (l : list A) :
  Forall P l → filter P l = l.
Proof.
  induction 1 as [|x l Hx _ IH]; [done|].
  rewrite filter_cons, decide_True by done. by rewrite IH.
Qed.

Lemma omap_fmap_same {A B} (f : A → option B) (g : A → A) (l : list A) :
  (∀ x, x ∈ l → f (g x) = f x) → omap f (g <$> l) = omap f l.
Proof.
  induction l as [|x l IH]; intros H; csimpl; [done|].
  rewrite (H x) by left. rewrite IH; [done|].
  intros y Hy. apply H. by right.
Qed.

(** ** Merging a result with its own records *)

(** The set of urls a frame holds. *)
Definition url_set (df : DataFrame) : gset string := list_to_set (urls df).

Lemma elem_of_url_set (df : DataFrame) (u : string) :
  u ∈ url_set df ↔ ∃ r : row, r ∈ rows df ∧ r !! "url" = Some u.
Proof.
  unfold url_set, urls. by rewrite elem_of_list_to_set, list_elem_of_omap.
Qed.



(** *** When the same frame comes back *)


















(** ** Loading the stored dataset *)

Section Load.

Context {raw : Type}.
Variable read_csv : raw → result DataFrame.

(** The NewsAPI loader never raises: an absent file and a file pandas cannot
    parse both give the empty frame, and the world is left as it was. *)
Lemma newsapi_load_never_raises (path : string) (w : world raw) :
  ∃ df, NewsApiRun.load_existing read_csv path w = (Ok df, w)
        ∧ (fs w !! path = None → df = empty_frame)
        ∧ (∀ content e, fs w !! path = Some content →
             read_csv content = Raise e → df = empty_frame)
        ∧ (∀ content df', fs w !! path = Some content →
             read_csv content = Ok df' → df = df').
Proof.
  unfold NewsApiRun.load_existing, bind, path_exists, try_except, read_file, ret.
  destruct (fs w !! path) as [content|] eqn:E; simpl; rewrite ?E.
  - destruct (read_csv content) as [df'|e] eqn:Er.
    + exists df'. split; [done|]. split; [done|]. split.
      * intros c e' [= <-] Hc. congruence.
      * intros c d [= <-] Hc. congruence.
    + exists empty_frame. split; [done|]. split; [done|]. split; [done|].
      intros c d [= <-] Hc. congruence.
  - exists empty_frame. split; [done|]. split; [done|]. split; done.
Qed.

(** The GDELT loader returns what the parser returns for a stored file,
    exception included, and the empty frame without one. *)
Lemma gdelt_load_existing_unfold (path : string) (w : world raw) :
  GdeltRun.load_existing read_csv path w
  = (match fs w !! path with
     | Some content => read_csv content
     | None => Ok empty_frame
     end, w).
Proof.
  unfold GdeltRun.load_existing, bind, path_exists, read_file, ret.
  destruct (fs w !! path) as [content|] eqn:E; simpl; rewrite ?E; done.
Qed.

End Load.

(** C7. The GDELT loader has no handler around [pd.read_csv]: for a stored
    file the parser rejects with exception [e], [load_existing] raises [e]
    instead of returning the empty frame. *)
Theorem gdelt_load_existing_raises {raw : Type} (content : raw) (e : exn)
    (files : gmap string raw) (n : nat) (tr : list event) (path : string) :
  GdeltRun.load_existing (λ _, Raise e) path
    (mkWorld (<[path := content]> files) n tr)
  = (Raise e, mkWorld (<[path := content]> files) n tr).
Proof.
  rewrite gdelt_load_existing_unfold. cbn [fs].
  by rewrite lookup_insert_eq.
Qed.

(** ** Sleeping *)

Lemma sleep_ok {raw : Type} (seconds : Q) (w : world raw) :
  (0 <= seconds)%Q →
  sleep seconds w
  = (Ok (), mkWorld (fs w) (sent w) (trace w ++ [Slept seconds])).
Proof.
  intros H. unfold sleep. destruct (Qlt_le_dec seconds 0) as [Hlt|_]; [|done].
  by destruct (Qlt_not_le _ _ Hlt).
Qed.

Lemma sleep_negative {raw : Type} (seconds : Q) (w : world raw) :
  (seconds < 0)%Q → sleep seconds w = (Raise ValueError, w).
Proof.
  intros H. unfold sleep. destruct (Qlt_le_dec seconds 0) as [_|Hle]; [done|].
  by destruct (Qlt_not_le _ _ H).
Qed.

Lemma backoff_bounds (sleep_s : Q) :
  (2 <= NewsApiRun.backoff sleep_s)%Q ∧ (sleep_s <= NewsApiRun.backoff sleep_s)%Q.
Proof.
  unfold NewsApiRun.backoff. destruct (Qlt_le_dec 2 sleep_s) as [H|H].
  - split; [by apply Qlt_le_weak|apply Qle_refl].
  - split; [apply Qle_refl|done].
Qed.

Lemma backoff_nonneg (sleep_s : Q) : (0 <= NewsApiRun.backoff sleep_s)%Q.
Proof.
  destruct (backoff_bounds sleep_s) as [H _].
  apply (Qle_trans _ 2); [done|exact H].
Qed.

(** ** The NewsAPI page loop *)

Section Pages.

Context {raw : Type}.
Variable net : nat → request → reply NewsApiRun.news_article.
Variables query api_key language : string.
Variable page_size : Z.
Variable sleep_s : Q.

Local Abbreviation page_request page :=
  (NewsEverything query api_key language page_size page).

Local Abbreviation loop :=
  (NewsApiRun.fetch_pages (raw := raw) net query api_key language page_size
     sleep_s).

(** One turn of the loop, by the answer to its request. *)
Lemma fetch_pages_step (page : Z) (pages : list Z) (all_rows : list json_object)
    (w : world raw) :
  let w1 := mkWorld (fs w) (S (sent w))
              (trace w ++ [Requested (page_request page)]) in
  loop (page :: pages) all_rows w
  = match net (sent w) (page_request page) with
    | NoReply => (Raise OtherError, w1)
    | Reply status b =>
        if decide (status = 429) then
          loop pages all_rows
            (mkWorld (fs w) (S (sent w))
               (trace w1 ++ [Slept (NewsApiRun.backoff sleep_s)]))
        else if decide (400 ≤ status < 600) then (Raise (HTTPError status), w1)
        else match b with
             | NotJson => (Raise OtherError, w1)
             | Json articles =>
                 match default [] articles with
                 | [] => (Ok all_rows, w1)
                 | a :: l =>
                     if Qlt_le_dec sleep_s 0 then (Raise ValueError, w1)
                     else loop pages
                            (all_rows
                               ++ (NewsApiRun.article_row query <$> a :: l))
                            (mkWorld (fs w) (S (sent w))
                               (trace w1 ++ [Slept sleep_s]))
                 end
             end
    end.
Proof.
  cbv zeta. cbn [NewsApiRun.fetch_pages].
  unfold bind at 1. unfold http_get.
  destruct (net (sent w) _) as [|status b]; [done|].
  destruct (decide (status = 429)) as [->|Hne].
  - unfold bind at 1. by rewrite sleep_ok by apply backoff_nonneg.
  - unfold bind at 1. unfold raise_for_status.
    destruct (decide (400 ≤ status < 600)); [done|].
    unfold ret at 1. unfold bind at 1. unfold json_articles.
    destruct b as [|articles]; [done|]. unfold ret at 1.
    destruct (default [] articles) as [|a l]; [done|].
    unfold bind at 1. unfold sleep.
    by destruct (Qlt_le_dec sleep_s 0).
Qed.




End Pages.




(** ** The orchestration *)

(** C6. [main] of the NewsAPI program calls the fetcher outside any [try]:
    when the first request of a query is answered with status 500,
    [raise_for_status] raises and the run ends there, whatever the network
    would have answered to the queries after it; nothing is stored. *)
Theorem newsapi_main_aborts_on_http_error {raw : Type}
    (read_csv : raw → result DataFrame) (to_csv : DataFrame → raw)
    (later : nat → request → reply NewsApiRun.news_article)
    (q : string) (rest : list string) (files : gmap string raw) :
  let net := λ (n : nat) (r : request),
               match n with
               | O => Reply 500 NotJson
               | S _ => later n r
               end in
  NewsApiRun.main_for read_csv to_csv net (Some "secret") (q :: rest)
    (mkWorld files 0 [])
  = (Raise (HTTPError 500),
     mkWorld files 1
       [Printed (FetchingLine q);
        Requested (NewsEverything q "secret" "en" 100 1)]).
Proof.
  intros net. set (w := mkWorld files 0 []).
  assert (Hk : NewsApiRun._require_api_key (raw := raw) (Some "secret") w
               = (Ok "secret", w)) by (vm_compute; reflexivity).
  destruct (newsapi_load_never_raises read_csv NewsApiRun.OUT_FILE w)
    as (existing & Hload & _).
  unfold NewsApiRun.main_for. unfold bind at 1. rewrite Hk.
  unfold bind at 1. rewrite Hload.
  unfold bind at 1. cbn [NewsApiRun.fetch_all].
  vm_compute. reflexivity.
Qed.

(** C9. [main] of the NewsAPI program has no early return: when every query
    comes back without an article it still merges and saves.  Here the
    stored file holds one record whose title has surrounding blanks; after
    the run the file has been written again, with the title trimmed, and the
    last line printed is the one that reports the save. *)
Theorem newsapi_main_rewrites_without_new_data :
  let stored := mkFrame ["url"; "title"]
                  [ {[ "url" := "http://a.example/1"; "title" := " Rally " ]} ] in
  let cleaned := mkFrame ["url"; "title"]
                   [ {[ "url" := "http://a.example/1"; "title" := "Rally" ]} ] in
  let net := λ (_ : nat) (_ : request),
               Reply 200 (Json (A := NewsApiRun.news_article) (Some [])) in
  let run := NewsApiRun.main (raw := DataFrame) Ok id net (Some "secret")
               (mkWorld {[ NewsApiRun.OUT_FILE := stored ]} 0 []) in
  run.1 = Ok ()
  ∧ fs run.2 !! NewsApiRun.OUT_FILE = Some cleaned
  ∧ drop 36 (trace run.2)
    = [Stored NewsApiRun.OUT_FILE; Printed (SavedLine NewsApiRun.OUT_FILE 1)]
  ∧ Forall (λ e, e ≠ Printed NoNewArticles) (trace run.2).
Proof.
  intros stored cleaned net run.
  split; [vm_compute; reflexivity|].
  split; [vm_compute; reflexivity|].
  split; [vm_compute; reflexivity|].
  apply Forall_forall. intros e He.
  assert (Hb : forallb (λ e, match e with
                             | Printed NoNewArticles => false
                             | _ => true
                             end) (trace run.2) = true)
    by (vm_compute; reflexivity).
  rewrite forallb_forall in Hb. apply list_elem_of_In in He.
  specialize (Hb e He). clear He. intros Heq. rewrite Heq in Hb.
  exact (Bool.diff_false_true Hb).
Qed.

(** ** The GDELT fetcher and query loop *)

(** What [fetch_gdelt_articles] makes of the answer to its request. *)
Definition gdelt_frame_of_reply (query : string) (r : reply json_object)
    : result DataFrame :=
  match r with
  | NoReply => Raise OtherError
  | Reply status b =>
      if decide (400 ≤ status < 600) then Raise (HTTPError status)
      else match b with
           | NotJson => Raise OtherError
           | Json articles =>
               match default [] articles with
               | [] => Ok empty_frame
               | records =>
                   Ok (set_column "query_used" query (frame_of_records records))
               end
           end
  end.



Section GdeltLoop.

Context {raw : Type}.
Variable net : nat → request → reply json_object.

Lemma fetch_gdelt_articles_unfold (query : string) (maxrecords timeout : Z)
    (w : world raw) :
  GdeltRun.fetch_gdelt_articles net query maxrecords timeout w
  = (gdelt_frame_of_reply query (net (sent w) (GdeltDoc query maxrecords timeout)),
     mkWorld (fs w) (S (sent w))
       (trace w ++ [Requested (GdeltDoc query maxrecords timeout)])).
Proof.
  unfold GdeltRun.fetch_gdelt_articles, gdelt_frame_of_reply, bind, http_get,
    raise, ret, raise_for_status, json_articles.
  destruct (net (sent w) _) as [|status b]; [done|].
  destruct (decide (400 ≤ status < 600)); [done|].
  destruct b as [|articles]; [done|].
  by destruct (default [] articles).
Qed.


(** A negative delay ends the loop after its first query: [time.sleep] is
    called outside the [try]. *)
Lemma gdelt_collect_negative_delay (q : string) (queries : list string)
    (sleep_s : Q) (all_new : list DataFrame) (w : world raw) :
  (sleep_s < 0)%Q →
  (GdeltRun.collect net (q :: queries) sleep_s all_new w).1 = Raise ValueError.
Proof.
  intros Hs. cbn [GdeltRun.collect].
  unfold bind at 1. unfold try_except. unfold bind at 1.
  rewrite fetch_gdelt_articles_unfold.
  destruct (gdelt_frame_of_reply q _) as [df|e].
  - unfold ret at 1. unfold bind at 1. by rewrite sleep_negative.
  - destruct e; unfold bind, print, emit, ret; by rewrite sleep_negative.
Qed.

End GdeltLoop.

(** ** Sequencing *)

Lemma bind_ok {raw A B} (m : M raw A) (k : A → M raw B) (w w' : world raw)
    (a : A) :
  m w = (Ok a, w') → bind m k w = k a w'.
Proof. intros H. unfold bind. by rewrite H. Qed.

Lemma bind_raise {raw A B} (m : M raw A) (k : A → M raw B) (w w' : world raw)
    (e : exn) :
  m w = (Raise e, w') → bind m k w = (Raise e, w').
Proof. intros H. unfold bind. by rewrite H. Qed.

Lemma bind_assoc_ok {raw B} (m1 m2 : M raw unit) (k : unit → M raw B)
    (w w' : world raw) :
  bind m1 (λ _, m2) w = (Ok (), w') →
  bind m1 (λ _, bind m2 k) w = k () w'.
Proof.
  unfold bind. destruct (m1 w) as [[[]|e] w0]; [|done].
  intros H. by rewrite H.
Qed.


(** ** The GDELT run *)

Section GdeltMain.

Context {raw : Type}.
Variable read_csv : raw → result DataFrame.
Variable to_csv : DataFrame → raw.
Variable net : nat → request → reply json_object.
Variable OUTPUT_CSV : string.
Variable DATA_DIR : string.
Variable os_makedirs : string → M raw unit.
Variable nltk_data_find : string → M raw unit.
Variable nltk_download : string → M raw unit.
Variable GDELT_SLEEP_SECONDS : option string.
Variable float : string → result Q.

Local Abbreviation main_for :=
  (GdeltRun.main_for read_csv to_csv net OUTPUT_CSV DATA_DIR os_makedirs
     nltk_data_find nltk_download GDELT_SLEEP_SECONDS float).

(** The two statements [main] begins with. *)
Local Abbreviation set_up :=
  (bind (os_makedirs DATA_DIR)
        (λ _, GdeltRun.ensure_nltk nltk_data_find nltk_download)).

(** After the set-up and the reading of the delay, the run goes on with the
    load, the query loop and the merge. *)
Lemma gdelt_main_after_set_up (queries : list string) (sleep_s : Q)
    (w w1 : world raw) :
  set_up w = (Ok (), w1) →
  float (default "0.3" GDELT_SLEEP_SECONDS) = Ok sleep_s →
  main_for queries w
  = bind (GdeltRun.load_existing read_csv OUTPUT_CSV)
      (λ existing,
         bind (GdeltRun.collect net queries sleep_s [])
           (λ all_new,
              match all_new with
              | [] => print NoNewArticles
              | _ =>
                  bind (lift (Gdelt.clean_and_merge existing (concat all_new)))
                    (λ combined,
                       bind (write_file to_csv OUTPUT_CSV combined)
                         (λ _, print (SavedLine OUTPUT_CSV
                                        (length (rows combined)))))
              end)) w1.
Proof.
  intros Hset Hf. unfold GdeltRun.main_for.
  rewrite (bind_assoc_ok _ _ _ w w1) by exact Hset.
  erewrite bind_ok; [reflexivity|]. unfold lift. by rewrite Hf.
Qed.

(** X19. When the set-up has succeeded and the delay is read, a stored file
    the parser rejects ends the GDELT run with the parser's exception, in
    the world the set-up left: no GDELT request is sent, and the run itself
    prints and stores nothing. *)
Lemma gdelt_main_unreadable_store (queries : list string) (sleep_s : Q)
    (w w1 : world raw) (content : raw) (e : exn) :
  set_up w = (Ok (), w1) →
  float (default "0.3" GDELT_SLEEP_SECONDS) = Ok sleep_s →
  fs w1 !! OUTPUT_CSV = Some content → read_csv content = Raise e →
  main_for queries w = (Raise e, w1).
Proof.
  intros Hset Hfl Hf Hr.
  rewrite (gdelt_main_after_set_up queries sleep_s w w1) by done.
  erewrite bind_raise; [reflexivity|].
  rewrite gdelt_load_existing_unfold. by rewrite Hf, Hr.
Qed.



End GdeltMain.

(** * Further properties of the two programs *)

(** ** The GDELT merge *)

Lemma gdelt_rows_sublist (existing new : DataFrame) :
  ∃ l, l `sublist_of` gdelt_selected existing new
       ∧ gdelt_rows existing new = gdelt_finish existing new <$> l.
Proof.
  assert (Hfin : ∀ l : list row,
    (if decide ("content" ∈ gdelt_columns existing new)
     then fill_content <$> l else l) = gdelt_finish existing new <$> l).
  { intros l. unfold gdelt_finish.
    destruct (decide ("content" ∈ gdelt_columns existing new)); [done|].
    by rewrite list_fmap_id. }
  unfold gdelt_rows. cbv zeta. fold (gdelt_selected existing new).
  rewrite Hfin. eexists. split; [|reflexivity].
  destruct (decide ("url" ∈ gdelt_columns existing new));
    destruct (decide ("title" ∈ gdelt_columns existing new));
    repeat (etrans; [apply sublist_filter|]);
    try apply keep_first_sublist; done.
Qed.

(** X1. The GDELT merge never raises, whatever frames it is given, and the
    columns of its result are the key columns that either argument has. *)
Theorem gdelt_merge_returns_key_columns (existing new : DataFrame) :
  ∃ out, Gdelt.clean_and_merge existing new = Ok out
    ∧ ∀ c, c ∈ columns out
           ↔ c ∈ Gdelt.key_columns ∧ (c ∈ columns existing ∨ c ∈ columns new).
Proof.
  eexists. split; [apply gdelt_merge_unfold|].
  intros c. apply elem_of_gdelt_columns.
Qed.

(** X2. The GDELT merge returns a frame in which no url occurs twice. *)
Theorem gdelt_merge_unique_urls (existing new : DataFrame) :
  ∃ out, Gdelt.clean_and_merge existing new = Ok out ∧ NoDup (urls out).
Proof.
  eexists. split; [apply gdelt_merge_unfold|].
  apply (gdelt_merge_urls_unique existing new), gdelt_merge_unfold.
Qed.

(** X3. Every cell of the frame the GDELT merge returns lies under one of
    the columns of that frame: the cells of the columns that were not kept
    are gone with them. *)
Theorem gdelt_merge_well_formed (existing new : DataFrame) :
  ∃ out, Gdelt.clean_and_merge existing new = Ok out ∧ well_formed out.
Proof.
  eexists. split; [apply gdelt_merge_unfold|].
  unfold well_formed. cbn [rows columns]. apply Forall_forall.
  intros r (r1 & -> & Hr1 & _)%elem_of_gdelt_rows c Hc.
  apply elem_of_gdelt_deduplicated in Hr1 as (r0 & _ & ->).
  unfold gdelt_finish in Hc.
  destruct (decide ("content" ∈ gdelt_columns existing new)) as [Hcont|Hcont].
  - destruct (decide (c = "content")) as [->|Hne]; [done|].
    rewrite lookup_fill_content, lookup_restrict in Hc by done.
    case_decide; [done|]. by destruct Hc.
  - rewrite lookup_restrict in Hc. case_decide; [done|]. by destruct Hc.
Qed.

(** X4. When the result of the GDELT merge has a [content] column, no record
    in it lacks its content: a missing one has become the empty text. *)
Theorem gdelt_merge_content_filled (existing new : DataFrame) :
  ∃ out, Gdelt.clean_and_merge existing new = Ok out
    ∧ ("content" ∈ columns out →
       ∀ r, r ∈ rows out → is_Some (r !! "content")).
Proof.
  eexists. split; [apply gdelt_merge_unfold|]. cbn [rows columns].
  intros Hc r (r1 & -> & _)%elem_of_gdelt_rows.
  unfold gdelt_finish. rewrite decide_True by done. unfold fill_content.
  destruct (r1 !! "content") as [v|] eqn:E.
  - rewrite E. eauto.
  - rewrite lookup_insert_eq. eauto.
Qed.

(** X5. The GDELT merge neither invents nor reorders urls: the urls of its
    result, in row order, are a subsequence of the urls of the stored rows
    followed by those of the new rows. *)
Theorem gdelt_merge_keeps_order (existing new : DataFrame) :
  ∃ out, Gdelt.clean_and_merge existing new = Ok out
    ∧ urls out
      `sublist_of` omap (λ r : row, r !! "url") (rows existing ++ rows new).
Proof.
  eexists. split; [apply gdelt_merge_unfold|]. unfold urls. cbn [rows].
  destruct (gdelt_rows_sublist existing new) as (l & Hl & ->).
  rewrite omap_fmap_same
    by (intros r _; by apply lookup_gdelt_finish).
  destruct (decide ("url" ∈ gdelt_columns existing new)) as [Hu|Hu].
  - etrans; [apply sublist_omap, Hl|]. unfold gdelt_selected.
    rewrite omap_fmap_same; [done|].
    intros r _. by rewrite lookup_restrict, decide_True.
  - rewrite omap_all_None; [apply sublist_nil_l|].
    intros r Hr. apply (elem_of_sublist _ _ _ Hr) in Hl.
    unfold gdelt_selected in Hl.
    apply list_elem_of_fmap in Hl as (r0 & -> & _).
    by rewrite lookup_restrict, decide_False.
Qed.

(** Closed decidable facts, by evaluation. *)
Ltac by_evaluation := apply (bool_decide_unpack _); vm_compute; exact I.

Lemma keys_NoDup (l : list row) :
  NoDup ((λ r : row, r !! "url") <$> l) → NoDup (dup_key ["url"] <$> l).
Proof.
  intros Hnd.
  rewrite (list_fmap_ext (dup_key ["url"])
             ((λ c : option string, [c]) ∘ (λ r : row, r !! "url")) l)
    by done.
  rewrite list_fmap_compose. apply NoDup_fmap_2; [|done].
  by intros x y [= ->].
Qed.

Lemma selected_urls (cols : list string) (l : list row) :
  "url" ∈ cols →
  (λ r : row, r !! "url") <$> (restrict cols <$> l)
  = (λ r : row, r !! "url") <$> l.
Proof.
  intros Hu. rewrite <- list_fmap_compose. apply list_fmap_ext.
  intros i r _. simpl. by rewrite lookup_restrict, decide_True.
Qed.

(** X6. Records that have a url and a title and whose urls differ all pass
    the GDELT merge: stored and new rows are all returned, urls unchanged and
    in order.  With an empty stored frame these are the new records. *)
Theorem gdelt_merge_keeps_valid_records (existing new : DataFrame) :
  "url" ∈ columns existing ∨ "url" ∈ columns new →
  "title" ∈ columns existing ∨ "title" ∈ columns new →
  Forall (λ r : row, is_Some (r !! "url") ∧ is_Some (r !! "title"))
         (rows existing ++ rows new) →
  NoDup ((λ r : row, r !! "url") <$> (rows existing ++ rows new)) →
  ∃ out, Gdelt.clean_and_merge existing new = Ok out
    ∧ urls out = omap (λ r : row, r !! "url") (rows existing ++ rows new)
    ∧ length (rows out) = (length (rows existing) + length (rows new))%nat.
Proof.
  intros Hcu Hct Hvalid Hnd.
  destruct key_columns_url_title as [Hku Hkt].
  assert (Hu : "url" ∈ gdelt_columns existing new)
    by (by apply elem_of_gdelt_columns).
  assert (Ht : "title" ∈ gdelt_columns existing new)
    by (by apply elem_of_gdelt_columns).
  eexists. split; [apply gdelt_merge_unfold|]. unfold urls. cbn [rows].
  assert (Hrows : ∃ f : row → row,
            (∀ r, f r !! "url" = r !! "url")
            ∧ gdelt_rows existing new = f <$> gdelt_selected existing new).
  { unfold gdelt_rows. cbv zeta. fold (gdelt_selected existing new).
    rewrite (decide_True (P := "url" ∈ _)) by done.
    rewrite (decide_True (P := "title" ∈ _)) by done.
    rewrite keep_first_all_distinct; cycle 1.
    { apply keys_NoDup. unfold gdelt_selected. by rewrite selected_urls. }
    { intros r _. apply not_elem_of_nil. }
    assert (Hsel : Forall (λ r : row, is_Some (r !! "url") ∧ is_Some (r !! "title"))
                     (gdelt_selected existing new)).
    { unfold gdelt_selected. apply Forall_fmap. eapply Forall_impl; [exact Hvalid|].
      intros r [? ?]. simpl. by rewrite !lookup_restrict, !decide_True. }
    rewrite !filter_all.
    - destruct (decide ("content" ∈ gdelt_columns existing new)).
      + exists fill_content. split; [|done].
        intros r. by apply lookup_fill_content.
      + exists (λ r, r). split; [done|]. by rewrite list_fmap_id.
    - eapply Forall_impl; [exact Hsel|]. intros r [? _].
      by apply has_cells_single.
    - rewrite filter_all.
      + eapply Forall_impl; [exact Hsel|]. intros r [_ ?].
        by apply has_cells_single.
      + eapply Forall_impl; [exact Hsel|]. intros r [? _].
        by apply has_cells_single. }
  destruct Hrows as (f & Hf & ->). split.
  - rewrite omap_fmap_same by (intros r _; apply Hf).
    unfold gdelt_selected. rewrite omap_fmap_same; [done|].
    intros r _. by rewrite lookup_restrict, decide_True.
  - unfold gdelt_selected. by rewrite !length_fmap, length_app.
Qed.

Lemma gdelt_merge_keeps_valid_records_witness :
  let r1 : row := {[ "url" := "http://a.example/1"; "title" := "Rally" ]} in
  let r2 : row := {[ "url" := "http://a.example/2"; "title" := "Vote" ]} in
  let new := mkFrame ["url"; "title"] [r1; r2] in
  ∃ out, Gdelt.clean_and_merge empty_frame new = Ok out
    ∧ urls out = omap (λ r : row, r !! "url") (rows empty_frame ++ rows new)
    ∧ length (rows out) = (length (rows empty_frame) + length (rows new))%nat.
Proof.
  intros r1 r2 new.
  apply (gdelt_merge_keeps_valid_records empty_frame new).
  - right. by_evaluation.
  - right. by_evaluation.
  - by_evaluation.
  - by_evaluation.
Defined.

(** ** The NewsAPI merge *)

Lemma omap_cons_Some {A B} (f : A → option B) (x : A) (y : B) (l : list A) :
  f x = Some y → omap f (x :: l) = y :: omap f l.
Proof. intros H. csimpl. by rewrite H. Qed.

Lemma newsapi_urls_of_clean (cols : list string) (l : list row) :
  "url" ∈ cols → "title" ∈ cols →
  Forall (λ r : row, is_Some (r !! "url")) l →
  omap (λ r : row, r !! "url") (clean_row NewsApi.text_columns cols <$> l)
  = strip <$> omap (λ r : row, r !! "url") l.
Proof.
  intros Hu Ht. induction 1 as [|r l [U HU] _ IH]; [done|].
  destruct (newsapi_clean_url_title cols r Hu Ht) as [E _]. rewrite HU in E.
  rewrite fmap_cons.
  rewrite (omap_cons_Some _ _ (strip U)) by exact E.
  rewrite (omap_cons_Some _ r U) by exact HU.
  by rewrite fmap_cons, IH.
Qed.

Lemma newsapi_kept_valid (existing new_data : DataFrame) :
  Forall (λ r : row, is_Some (r !! "url") ∧ is_Some (r !! "title"))
         (newsapi_kept existing new_data).
Proof.
  apply Forall_forall. intros r Hr. unfold newsapi_kept in Hr.
  apply keep_first_elem_of in Hr as [Hr _].
  apply list_elem_of_filter in Hr as [Hr _].
  by apply has_cells_url_title.
Qed.

Lemma newsapi_kept_sublist (existing new_data : DataFrame) :
  newsapi_kept existing new_data `sublist_of` rows existing ++ rows new_data.
Proof.
  unfold newsapi_kept. etrans; [apply keep_first_sublist|apply sublist_filter].
Qed.

(** X7. The urls of the frame the NewsAPI merge returns are exactly the
    trimmed urls of the stored and new rows that have a url and a title: no
    such url is lost and none is invented. *)
Theorem newsapi_merge_url_set (existing new_data out : DataFrame) (u : string) :
  NewsApi.clean_and_merge existing new_data = Ok out →
  u ∈ url_set out
  ↔ ∃ (r : row) (U : string),
      r ∈ rows existing ++ rows new_data
      ∧ r !! "url" = Some U ∧ is_Some (r !! "title") ∧ u = strip U.
Proof.
  intros Hok. destruct (newsapi_merge_ok_columns _ _ _ Hok) as [Hcu Hct].
  rewrite elem_of_url_set. split.
  - intros (r' & (r1 & Hr1 & ->)%(elem_of_newsapi_rows _ _ _ _ Hok) & Hu).
    pose proof (newsapi_kept_valid existing new_data) as Hv.
    rewrite Forall_forall in Hv. destruct (Hv r1 Hr1) as [[U HU] Ht].
    exists r1, U. split.
    { eapply elem_of_sublist; [exact Hr1|apply newsapi_kept_sublist]. }
    split; [done|]. split; [done|].
    destruct (newsapi_clean_url_title _ r1 Hcu Hct) as [E _].
    rewrite E, HU in Hu. by injection Hu as <-.
  - intros (r & U & Hr & HU & Ht & ->).
    assert (Hkey : [Some U] ∈ dup_key ["url"] <$> newsapi_kept existing new_data).
    { apply keep_first_keys. split; [|apply not_elem_of_nil].
      apply list_elem_of_fmap. exists r. split.
      - unfold dup_key. simpl. by rewrite HU.
      - apply list_elem_of_filter. split; [|done].
        apply has_cells_url_title. rewrite HU. eauto. }
    apply list_elem_of_fmap in Hkey as (r1 & Hk1 & Hr1).
    assert (Hu1 : r1 !! "url" = Some U).
    { unfold dup_key in Hk1. simpl in Hk1. by injection Hk1 as <-. }
    eexists. split; [apply (elem_of_newsapi_rows _ _ _ _ Hok); eauto|].
    destruct (newsapi_clean_url_title _ r1 Hcu Hct) as [-> _].
    by rewrite Hu1.
Qed.

Lemma newsapi_merge_url_set_witness :
  let r1 : row := {[ "url" := " http://a.example/1"; "title" := "Rally" ]} in
  let r2 : row := {[ "url" := "http://a.example/2" ]} in
  let new_data := mkFrame ["url"; "title"] [r1; r2] in
  let out := mkFrame ["url"; "title"]
               [ {[ "url" := "http://a.example/1"; "title" := "Rally" ]} ] in
  NewsApi.clean_and_merge empty_frame new_data = Ok out
  ∧ ("http://a.example/1" ∈ url_set out
     ↔ ∃ (r : row) (U : string),
         r ∈ rows empty_frame ++ rows new_data
         ∧ r !! "url" = Some U ∧ is_Some (r !! "title")
         ∧ "http://a.example/1" = strip U).
Proof.
  intros r1 r2 new_data out.
  assert (Hok : NewsApi.clean_and_merge empty_frame new_data = Ok out)
    by (vm_compute; reflexivity).
  exact (conj Hok (newsapi_merge_url_set empty_frame new_data out
                     "http://a.example/1" Hok)).
Defined.

(** X8. In the frame the NewsAPI merge returns, every cell under one of the
    seven text columns the frame has is present and has no surrounding
    whitespace. *)
Theorem newsapi_merge_cells_trimmed (existing new_data out : DataFrame)
    (r : row) (c : string) :
  NewsApi.clean_and_merge existing new_data = Ok out →
  r ∈ rows out → c ∈ NewsApi.text_columns → c ∈ columns out →
  ∃ s, r !! c = Some s ∧ strip s = s.
Proof.
  intros Hok Hr Hc Hcol.
  destruct (newsapi_merge_ok_columns _ _ _ Hok) as [Hcu Hct].
  assert (Hcols : columns out = columns (concat [existing; new_data])).
  { rewrite newsapi_merge_unfold in Hok by done. by apply ok_inj in Hok as <-. }
  apply (elem_of_newsapi_rows _ _ _ _ Hok) in Hr as (r1 & _ & ->).
  rewrite lookup_clean_row, decide_True by (by rewrite <- Hcols).
  eexists. split; [reflexivity|apply strip_idem].
Qed.

Lemma newsapi_merge_cells_trimmed_witness :
  let r1 : row := {[ "url" := "http://a.example/1"; "title" := " Rally " ]} in
  let r : row := {[ "url" := "http://a.example/1"; "title" := "Rally" ]} in
  let new_data := mkFrame ["url"; "title"] [r1] in
  let out := mkFrame ["url"; "title"] [r] in
  NewsApi.clean_and_merge empty_frame new_data = Ok out
  ∧ ∃ s, r !! "title" = Some s ∧ strip s = s.
Proof.
  intros r1 r new_data out.
  assert (Hok : NewsApi.clean_and_merge empty_frame new_data = Ok out)
    by (vm_compute; reflexivity).
  split; [exact Hok|].
  apply (newsapi_merge_cells_trimmed empty_frame new_data out r "title" Hok).
  - left.
  - by_evaluation.
  - by_evaluation.
Defined.

(** X9. Records that have a url and a title and whose urls differ all pass
    the NewsAPI merge: stored and new rows are all returned, in order, with
    their urls trimmed.  With an empty stored frame these are the new
    records. *)
Theorem newsapi_merge_keeps_valid_records (existing new_data : DataFrame) :
  "url" ∈ columns existing ∨ "url" ∈ columns new_data →
  "title" ∈ columns existing ∨ "title" ∈ columns new_data →
  Forall (λ r : row, is_Some (r !! "url") ∧ is_Some (r !! "title"))
         (rows existing ++ rows new_data) →
  NoDup ((λ r : row, r !! "url") <$> (rows existing ++ rows new_data)) →
  ∃ out, NewsApi.clean_and_merge existing new_data = Ok out
    ∧ urls out
      = strip <$> omap (λ r : row, r !! "url") (rows existing ++ rows new_data)
    ∧ length (rows out)
      = (length (rows existing) + length (rows new_data))%nat.
Proof.
  intros Hcu%elem_of_concat_columns Hct%elem_of_concat_columns Hvalid Hnd.
  eexists. split; [by apply newsapi_merge_unfold|].
  unfold urls. cbn [rows].
  assert (Hkept : newsapi_kept existing new_data = rows existing ++ rows new_data).
  { unfold newsapi_kept. rewrite filter_all.
    - apply keep_first_all_distinct; [by apply keys_NoDup|].
      intros r _. apply not_elem_of_nil.
    - eapply Forall_impl; [exact Hvalid|]. intros r ?.
      by apply has_cells_url_title. }
  rewrite Hkept. split.
  - apply newsapi_urls_of_clean; [done|done|].
    eapply Forall_impl; [exact Hvalid|]. by intros r [? _].
  - by rewrite length_fmap, length_app.
Qed.

Lemma newsapi_merge_keeps_valid_records_witness :
  let r1 : row := {[ "url" := "http://a.example/1"; "title" := "Rally" ]} in
  let r2 : row := {[ "url" := "http://a.example/2"; "title" := "Vote" ]} in
  let new_data := mkFrame ["url"; "title"] [r1; r2] in
  ∃ out, NewsApi.clean_and_merge empty_frame new_data = Ok out
    ∧ urls out
      = strip <$> omap (λ r : row, r !! "url")
                       (rows empty_frame ++ rows new_data)
    ∧ length (rows out)
      = (length (rows empty_frame) + length (rows new_data))%nat.
Proof.
  intros r1 r2 new_data.
  apply (newsapi_merge_keeps_valid_records empty_frame new_data).
  - right. by_evaluation.
  - right. by_evaluation.
  - by_evaluation.
  - by_evaluation.
Defined.

(** ** The fetchers *)

Lemma elem_of_set_column (col v : string) (df : DataFrame) (c : string) :
  c ∈ columns (set_column col v df) ↔ c ∈ columns df ∨ c = col.
Proof.
  unfold set_column. cbn [columns]. case_decide.
  - split; [by left|]. by intros [?| ->].
  - rewrite elem_of_app, list_elem_of_singleton. done.
Qed.

(** X10. A frame [fetch_gdelt_articles] returns carries the query in every
    row, under a [query_used] column it has as soon as it has a row; and the
    call has sent exactly one request. *)
Theorem fetch_gdelt_articles_tagged {raw : Type}
    (net : nat → request → reply json_object) (query : string)
    (maxrecords timeout : Z) (w : world raw) (df : DataFrame) :
  (GdeltRun.fetch_gdelt_articles net query maxrecords timeout w).1 = Ok df →
  (∀ r : row, r ∈ rows df → r !! "query_used" = Some query)
  ∧ (rows df ≠ [] → "query_used" ∈ columns df)
  ∧ sent (GdeltRun.fetch_gdelt_articles net query maxrecords timeout w).2
    = S (sent w).
Proof.
  rewrite fetch_gdelt_articles_unfold. cbn [fst snd sent].
  unfold gdelt_frame_of_reply.
  destruct (net (sent w) _) as [|status b]; [done|].
  destruct (decide (400 ≤ status < 600)); [done|].
  destruct b as [|articles]; [done|].
  destruct (default [] articles) as [|a l]; intros [= <-].
  - split; [|done]. intros r Hr. by apply elem_of_nil in Hr.
  - split; [|split; [|done]].
    + intros r (r0 & -> & _)%list_elem_of_fmap. apply lookup_insert_eq.
    + intros _. apply elem_of_set_column. by right.
Qed.

Lemma fetch_gdelt_articles_tagged_witness :
  let net := λ (_ : nat) (_ : request),
               Reply 200 (Json (Some [[("url", Some "http://a.example/1");
                                       ("title", Some "Rally")]])) in
  let w := mkWorld (∅ : gmap string unit) 0 [] in
  let df := mkFrame ["url"; "title"; "query_used"]
              [ {[ "url" := "http://a.example/1"; "title" := "Rally";
                   "query_used" := "q" ]} ] in
  (GdeltRun.fetch_gdelt_articles net "q" 250 30 w).1 = Ok df
  ∧ (∀ r : row, r ∈ rows df → r !! "query_used" = Some "q")
  ∧ (rows df ≠ [] → "query_used" ∈ columns df)
  ∧ sent (GdeltRun.fetch_gdelt_articles net "q" 250 30 w).2 = S (sent w).
Proof.
  intros net w df.
  assert (H : (GdeltRun.fetch_gdelt_articles net "q" 250 30 w).1 = Ok df)
    by (vm_compute; reflexivity).
  exact (conj H (fetch_gdelt_articles_tagged net "q" 250 30 w df H)).
Defined.

(** The pages asked of NewsAPI, in the order of the requests. *)
Definition requested_pages (tr : list event) : list Z :=
  omap (λ e, match e with
             | Requested (NewsEverything _ _ _ _ page) => Some page
             | _ => None
             end) tr.

Section NewsPages.

Context {raw : Type}.
Variable net : nat → request → reply NewsApiRun.news_article.
Variables query api_key language : string.
Variable page_size : Z.
Variable sleep_s : Q.

Local Abbreviation loop :=
  (NewsApiRun.fetch_pages (raw := raw) net query api_key language page_size
     sleep_s).

(** The loop asks for a first stretch of its pages, one request each, and
    touches no file. *)
Lemma fetch_pages_requests (pages : list Z) (all_rows : list json_object)
    (w : world raw) :
  ∃ k, (k ≤ length pages)%nat
    ∧ requested_pages (trace (loop pages all_rows w).2)
      = requested_pages (trace w) ++ take k pages
    ∧ fs (loop pages all_rows w).2 = fs w.
Proof.
  revert all_rows w.
  induction pages as [|page pages IH]; intros all_rows w.
  - exists 0%nat. cbn. by rewrite app_nil_r.
  - rewrite fetch_pages_step. cbv zeta. cbn [length].
    assert (Hone : ∀ tr, requested_pages
                      (tr ++ [Requested (NewsEverything query api_key language
                                           page_size page)])
                    = requested_pages tr ++ [page]).
    { intros tr. unfold requested_pages. by rewrite omap_app. }
    assert (Hsl : ∀ tr d, requested_pages (tr ++ [Slept d]) = requested_pages tr).
    { intros tr d. unfold requested_pages. rewrite omap_app. cbn.
      by rewrite app_nil_r. }
    assert (Hstop : ∃ k, (k ≤ S (length pages))%nat
              ∧ requested_pages (trace w) ++ [page]
                = requested_pages (trace w) ++ take k (page :: pages)).
    { exists 1%nat. split; [lia|]. by rewrite firstn_cons, take_0. }
    destruct (net (sent w) _) as [|status b].
    { cbn. rewrite Hone. destruct Hstop as (k & ? & ?). eauto. }
    destruct (decide (status = 429)) as [->|Hne].
    + cbn [trace fs sent].
      match goal with
      | |- context [NewsApiRun.fetch_pages _ _ _ _ _ _ pages all_rows ?w'] =>
          destruct (IH all_rows w') as (k & Hk & Hreq & Hfs)
      end.
      cbn [trace fs] in Hreq, Hfs. rewrite Hsl, Hone in Hreq.
      exists (S k). split; [lia|]. split; [|done].
      rewrite Hreq, firstn_cons. by rewrite <- app_assoc.
    + destruct (decide (400 ≤ status < 600)).
      { cbn. rewrite Hone. destruct Hstop as (k & ? & ?). eauto. }
      destruct b as [|articles].
      { cbn. rewrite Hone. destruct Hstop as (k & ? & ?). eauto. }
      destruct (default [] articles) as [|a l] eqn:E.
      { cbn. rewrite Hone. destruct Hstop as (k & ? & ?). eauto. }
      destruct (Qlt_le_dec sleep_s 0).
      { cbn. rewrite Hone. destruct Hstop as (k & ? & ?). eauto. }
      cbn [trace fs sent].
      match goal with
      | |- context [NewsApiRun.fetch_pages _ _ _ _ _ _ pages ?rows' ?w'] =>
          destruct (IH rows' w') as (k & Hk & Hreq & Hfs)
      end.
      cbn [trace fs] in Hreq, Hfs. rewrite Hsl, Hone in Hreq.
      exists (S k). split; [lia|]. split; [|done].
      rewrite Hreq, firstn_cons. by rewrite <- app_assoc.
Qed.

End NewsPages.

(** X11. [fetch_newsapi_articles] asks for pages 1, 2, ... in order, each
    at most once and none beyond [max_pages], whatever the answers are
    (rate-limited, failed or empty pages included), and touches no file. *)
Theorem fetch_newsapi_articles_pages {raw : Type}
    (net : nat → request → reply NewsApiRun.news_article)
    (query api_key language : string) (page_size max_pages : Z) (sleep_s : Q)
    (w : world raw) :
  let w' := (NewsApiRun.fetch_newsapi_articles net query api_key language
               page_size max_pages sleep_s w).2 in
  ∃ k, (k ≤ Z.to_nat max_pages)%nat
    ∧ requested_pages (trace w')
      = requested_pages (trace w) ++ take k (seqZ 1 max_pages)
    ∧ fs w' = fs w.
Proof.
  cbv zeta. unfold NewsApiRun.fetch_newsapi_articles, bind, ret.
  destruct (fetch_pages_requests net query api_key language page_size sleep_s
              (seqZ 1 max_pages) [] w) as (k & Hk & Hreq & Hfs).
  rewrite length_seqZ in Hk. exists k.
  destruct (NewsApiRun.fetch_pages net query api_key language page_size
              sleep_s (seqZ 1 max_pages) [] w) as [[rows'|e] w']; done.
Qed.

(** X12. With [max_pages] zero or negative [fetch_newsapi_articles] sends no
    request at all and returns the empty frame. *)
Theorem fetch_newsapi_articles_no_pages {raw : Type}
    (net : nat → request → reply NewsApiRun.news_article)
    (query api_key language : string) (page_size max_pages : Z) (sleep_s : Q)
    (w : world raw) :
  max_pages ≤ 0 →
  NewsApiRun.fetch_newsapi_articles net query api_key language page_size
    max_pages sleep_s w
  = (Ok empty_frame, w).
Proof.
  intros H. unfold NewsApiRun.fetch_newsapi_articles.
  by rewrite seqZ_nil.
Qed.

Lemma fetch_newsapi_articles_no_pages_witness :
  NewsApiRun.fetch_newsapi_articles (raw := unit)
    (λ _ _, Reply 200 (Json None)) "q" "k" "en" 100 0 1 (mkWorld ∅ 0 [])
  = (Ok empty_frame, mkWorld ∅ 0 []).
Proof. apply fetch_newsapi_articles_no_pages. lia. Defined.

(** A cell of [pd.DataFrame(records)] is what [get] reads in the record. *)
Lemma row_of_object_lookup (obj : json_object) (k : string) :
  row_of_object obj !! k = get k obj.
Proof.
  induction obj as [|[k' v] obj IH]; [done|].
  cbn [row_of_object foldr get fst snd]. fold (row_of_object obj).
  destruct (decide (k = k')) as [->|Hne].
  - destruct v; [apply lookup_insert_eq|apply lookup_delete_eq].
  - destruct v; [by rewrite lookup_insert_ne|by rewrite lookup_delete_ne].
Qed.

Definition newsapi_columns : list string :=
  ["source"; "author"; "title"; "description"; "url"; "published_at";
   "content"; "query"].

Section NewsRows.

Context {raw : Type}.
Variable net : nat → request → reply NewsApiRun.news_article.
Variables query api_key language : string.
Variable page_size : Z.
Variable sleep_s : Q.

Local Abbreviation loop :=
  (NewsApiRun.fetch_pages (raw := raw) net query api_key language page_size
     sleep_s).

Definition is_article_row (obj : json_object) : Prop :=
  ∃ a, obj = NewsApiRun.article_row query a.

Lemma fetch_pages_rows (pages : list Z) (all_rows rows' : list json_object)
    (w : world raw) :
  Forall is_article_row all_rows →
  (loop pages all_rows w).1 = Ok rows' → Forall is_article_row rows'.
Proof.
  revert all_rows w.
  induction pages as [|page pages IH]; intros all_rows w Hall.
  - cbn. by intros [= <-].
  - rewrite fetch_pages_step. cbv zeta.
    destruct (net (sent w) _) as [|status b]; [done|].
    destruct (decide (status = 429)) as [->|Hne].
    + by apply IH.
    + destruct (decide (400 ≤ status < 600)); [done|].
      destruct b as [|articles]; [done|].
      destruct (default [] articles) as [|a l] eqn:E.
      { cbn. by intros [= <-]. }
      destruct (Qlt_le_dec sleep_s 0); [done|].
      apply IH. apply Forall_app. split; [done|].
      apply Forall_forall. intros obj Hobj.
      apply list_elem_of_fmap in Hobj as (a' & -> & _). by exists a'.
Qed.

End NewsRows.

(** X13. A frame [fetch_newsapi_articles] returns carries the query in the
    [query] cell of every row and, as soon as it has a row, has exactly the
    eight columns the fetcher fills. *)
Theorem fetch_newsapi_articles_rows {raw : Type}
    (net : nat → request → reply NewsApiRun.news_article)
    (query api_key language : string) (page_size max_pages : Z) (sleep_s : Q)
    (w : world raw) (df : DataFrame) :
  (NewsApiRun.fetch_newsapi_articles net query api_key language page_size
     max_pages sleep_s w).1 = Ok df →
  (∀ r : row, r ∈ rows df → r !! "query" = Some query)
  ∧ (rows df ≠ [] → ∀ c, c ∈ columns df ↔ c ∈ newsapi_columns).
Proof.
  unfold NewsApiRun.fetch_newsapi_articles, bind, ret.
  destruct (NewsApiRun.fetch_pages net query api_key language page_size
              sleep_s (seqZ 1 max_pages) [] w) as [[rows'|e] w'] eqn:E;
    [|done].
  cbn [fst]. intros [= <-].
  assert (Hrows : Forall (is_article_row query) rows').
  { apply (fetch_pages_rows net query api_key language page_size sleep_s
             (seqZ 1 max_pages) [] rows' w); [constructor|by rewrite E]. }
  rewrite Forall_forall in Hrows. unfold frame_of_records. cbn [rows columns].
  split.
  - intros r (obj & -> & [a ->]%Hrows)%list_elem_of_fmap.
    rewrite row_of_object_lookup. reflexivity.
  - intros Hne c. rewrite elem_of_remove_dups, list_elem_of_bind. split.
    + intros (obj & Hc & [a ->]%Hrows). exact Hc.
    + intros Hc. destruct rows' as [|obj l]; [done|].
      exists obj. split; [|left].
      destruct (Hrows obj) as [a ->]; [left|]. exact Hc.
Qed.

Lemma fetch_newsapi_articles_rows_witness :
  let article := NewsApiRun.mkArticle (Some [("name", Some "Gazette")]) None
                   (Some "Rally") None (Some "http://a.example/1") None None in
  let net := λ (n : nat) (_ : request),
               match n with
               | O => Reply 200 (Json (Some [article]))
               | S _ => Reply 200 (Json (Some []))
               end in
  let w := mkWorld (∅ : gmap string unit) 0 [] in
  let df := mkFrame newsapi_columns
              [ {[ "source" := "Gazette"; "title" := "Rally";
                   "url" := "http://a.example/1"; "query" := "q" ]} ] in
  (NewsApiRun.fetch_newsapi_articles net "q" "k" "en" 100 5 1 w).1 = Ok df
  ∧ (∀ r : row, r ∈ rows df → r !! "query" = Some "q")
  ∧ (rows df ≠ [] → ∀ c, c ∈ columns df ↔ c ∈ newsapi_columns).
Proof.
  intros article net w df.
  assert (H : (NewsApiRun.fetch_newsapi_articles net "q" "k" "en" 100 5 1 w).1
              = Ok df) by (vm_compute; reflexivity).
  exact (conj H (fetch_newsapi_articles_rows net "q" "k" "en" 100 5 1 w df H)).
Defined.

(** ** The NewsAPI run *)

(** X14. Without a key in the environment, or with a blank one, the NewsAPI
    run raises [RuntimeError] at once: no file is read, no request sent,
    nothing printed or stored. *)
Theorem newsapi_main_requires_key {raw : Type}
    (read_csv : raw → result DataFrame) (to_csv : DataFrame → raw)
    (net : nat → request → reply NewsApiRun.news_article)
    (NEWSAPI_KEY : option string) (queries : list string) (w : world raw) :
  strip (default "" NEWSAPI_KEY) = "" →
  NewsApiRun.main_for read_csv to_csv net NEWSAPI_KEY queries w
  = (Raise RuntimeError, w).
Proof.
  intros H. unfold NewsApiRun.main_for. unfold bind at 1.
  unfold NewsApiRun._require_api_key. rewrite H.
  by rewrite decide_True.
Qed.

Lemma newsapi_main_requires_key_witness :
  NewsApiRun.main_for (raw := DataFrame) Ok id
    (λ _ _, Reply 200 (Json None)) (Some "   ") DEFAULT_QUERIES
    (mkWorld ∅ 0 [])
  = (Raise RuntimeError, mkWorld ∅ 0 []).
Proof. apply newsapi_main_requires_key. reflexivity. Defined.

(** X15. The key [_require_api_key] returns is the environment's value
    without its surrounding whitespace, and is never empty. *)
Theorem require_api_key_trimmed {raw : Type} (NEWSAPI_KEY : option string)
    (w : world raw) (key : string) :
  (NewsApiRun._require_api_key NEWSAPI_KEY w).1 = Ok key →
  key ≠ "" ∧ strip key = key ∧ ∃ s, NEWSAPI_KEY = Some s ∧ key = strip s.
Proof.
  unfold NewsApiRun._require_api_key.
  destruct (decide (strip (default "" NEWSAPI_KEY) = "")) as [He|Hne];
    [done|].
  cbn. intros [= <-]. split; [done|]. split; [apply strip_idem|].
  destruct NEWSAPI_KEY as [s|]; [eauto|]. by destruct Hne.
Qed.

Lemma require_api_key_trimmed_witness :
  "secret" ≠ "" ∧ strip "secret" = "secret"
  ∧ ∃ s, Some " secret " = Some s ∧ "secret" = strip s.
Proof.
  apply (require_api_key_trimmed (raw := unit) (Some " secret ")
           (mkWorld ∅ 0 []) "secret").
  vm_compute. reflexivity.
Defined.

(** ** The GDELT run, continued *)




(** A machine without the NLTK resources: [nltk.data.find] raises
    [LookupError] and [nltk.download] stores the resource. *)
Definition find_nothing : string → M DataFrame unit := λ _, raise LookupError.

Definition download_resource : string → M DataFrame unit :=
  λ name, write_file id name empty_frame.

Definition world_after_set_up (files : gmap string DataFrame) : world DataFrame :=
  mkWorld (<["stopwords" := empty_frame]> (<["punkt" := empty_frame]> files)) 0
    [Stored "punkt"; Stored "stopwords"].

Lemma gdelt_main_unreadable_store_witness :
  let read_csv := λ df : DataFrame,
                    if df_empty df then Raise OtherError else Ok df in
  let files : gmap string DataFrame := {[ "data/combined.csv" := empty_frame ]} in
  GdeltRun.main_for read_csv id (λ _ _, Reply 200 (Json None))
    "data/combined.csv" "data" (λ _, ret ()) find_nothing download_resource
    None (λ _, Ok (3 # 10)) DEFAULT_QUERIES (mkWorld files 0 [])
  = (Raise OtherError, world_after_set_up files).
Proof.
  intros read_csv files.
  apply (gdelt_main_unreadable_store read_csv id (λ _ _, Reply 200 (Json None))
           "data/combined.csv" "data" (λ _, ret ()) find_nothing
           download_resource None (λ _, Ok (3 # 10)) DEFAULT_QUERIES (3 # 10)
           (mkWorld files 0 []) (world_after_set_up files) empty_frame
           OtherError).
  - vm_compute. reflexivity.
  - reflexivity.
  - vm_compute. reflexivity.
  - reflexivity.
Defined.



(** ** The NewsAPI run, continued *)

(** X20. The NewsAPI loader always returns a frame and changes nothing; a
    frame other than the empty one can only be what the parser made of a
    file stored under the path. *)
Theorem newsapi_load_existing_total {raw : Type}
    (read_csv : raw → result DataFrame) (path : string) (w : world raw) :
  ∃ df, NewsApiRun.load_existing read_csv path w = (Ok df, w)
    ∧ (df ≠ empty_frame →
       ∃ content, fs w !! path = Some content ∧ read_csv content = Ok df).
Proof.
  destruct (newsapi_load_never_raises read_csv path w)
    as (df & Hload & Hnone & Hbad & Hgood).
  exists df. split; [done|]. intros Hne.
  destruct (fs w !! path) as [content|] eqn:E; [|by destruct Hne; apply Hnone].
  exists content. split; [done|].
  destruct (read_csv content) as [df'|e] eqn:Er.
  - by rewrite (Hgood content df').
  - destruct Hne. by apply (Hbad content e).
Qed.

Section NewsMain.

Context {raw : Type}.
Variable read_csv : raw → result DataFrame.
Variable to_csv : DataFrame → raw.
Variable net : nat → request → reply NewsApiRun.news_article.

Lemma fetch_newsapi_articles_fs (query api_key language : string)
    (page_size max_pages : Z) (sleep_s : Q) (w : world raw) :
  fs (NewsApiRun.fetch_newsapi_articles net query api_key language page_size
        max_pages sleep_s w).2 = fs w.
Proof.
  unfold NewsApiRun.fetch_newsapi_articles, bind, ret.
  destruct (fetch_pages_requests net query api_key language page_size sleep_s
              (seqZ 1 max_pages) [] w) as (k & _ & _ & Hfs).
  destruct (NewsApiRun.fetch_pages net query api_key language page_size
              sleep_s (seqZ 1 max_pages) [] w) as [[rows'|e] w']; done.
Qed.

Lemma fetch_all_fs (api_key : string) (queries : list string)
    (frames : list DataFrame) (w : world raw) :
  fs (NewsApiRun.fetch_all net api_key queries frames w).2 = fs w.
Proof.
  revert frames w. induction queries as [|q queries IH]; intros frames w.
  - done.
  - cbn [NewsApiRun.fetch_all]. unfold bind at 1. unfold print at 1, emit.
    unfold bind at 1.
    match goal with
    | |- context [NewsApiRun.fetch_newsapi_articles _ _ _ _ ?ps ?mp ?sl ?w1] =>
        pose proof (fetch_newsapi_articles_fs q api_key "en" ps mp sl w1) as Hfs;
        destruct (NewsApiRun.fetch_newsapi_articles net q api_key "en" ps mp sl w1)
          as [[df|e] w2]
    end; cbn [snd fs] in Hfs; [|done].
    unfold bind at 1. unfold print at 1, emit.
    rewrite IH. done.
Qed.

(** X21. The NewsAPI run writes its file as its last action or not at all:
    if the run raises, the files are as they were before it; if it returns,
    the only change is the dataset file, holding a serialised frame. *)
Theorem newsapi_main_store_effect (NEWSAPI_KEY : option string)
    (queries : list string) (w : world raw) :
  let run := NewsApiRun.main_for read_csv to_csv net NEWSAPI_KEY queries w in
  match run.1 with
  | Ok _ => ∃ combined,
      fs run.2 = <[NewsApiRun.OUT_FILE := to_csv combined]> (fs w)
  | Raise _ => fs run.2 = fs w
  end.
Proof.
  cbv zeta. unfold NewsApiRun.main_for.
  destruct (decide (strip (default "" NEWSAPI_KEY) = "")) as [He|Hne].
  { erewrite bind_raise; [done|].
    unfold NewsApiRun._require_api_key. by rewrite decide_True. }
  erewrite bind_ok; cycle 1.
  { unfold NewsApiRun._require_api_key. by rewrite decide_False. }
  destruct (newsapi_load_never_raises read_csv NewsApiRun.OUT_FILE w)
    as (existing & Hload & _).
  erewrite bind_ok by exact Hload.
  pose proof (fetch_all_fs (strip (default "" NEWSAPI_KEY)) queries [] w) as Hfs.
  destruct (NewsApiRun.fetch_all net (strip (default "" NEWSAPI_KEY)) queries
              [] w) as [[frames|e] w2] eqn:E; cbn [snd] in Hfs.
  - erewrite bind_ok by exact E.
    destruct (NewsApi.clean_and_merge existing
                match frames with [] => empty_frame | _ => concat frames end)
      as [combined|e].
    + erewrite bind_ok by reflexivity.
      unfold bind, write_file, print, emit. cbn [fst snd fs].
      exists combined. by rewrite Hfs.
    + erewrite bind_raise by reflexivity.
      exact Hfs.
  - erewrite bind_raise by exact E. exact Hfs.
Qed.

End NewsMain.
